(** * A shallow embedding of [SimpleDispatcher] (package [dispatcher]) of go-workers

    The dispatcher is a pointer graph in Go: managers hold references to
    worker and task items, result envelopes carry the same references, and
    every status change goes through the item the reference points at.  We
    model this with an explicit heap per item kind (a [gmap] from reference
    to item) and managers that only store references.  The Go code threads
    that state through every method; here it is threaded by a small
    state/blocking monad [DM], in which [None] means that the carrier
    blocks at this point. *)

From stdpp Require Import base gmap strings list fin_maps numbers.
From Stdlib Require Import DecimalString.

Open Scope Z_scope.

(* ------------------------------------------------------------------ *)
(** ** Statuses *)

(** [workers.TaskStatus], from the enumer file [task_status_enumer.go]:
    [_TaskStatusValues = {0, ..., 6}]. *)
Inductive TaskStatus :=
| TaskStatusUndefined
| TaskStatusWait
| TaskStatusProcess
| TaskStatusSuccess
| TaskStatusFail
| TaskStatusRepeatWait
| TaskStatusCancel.

Definition TaskStatus_int (s : TaskStatus) : Z :=
  match s with
  | TaskStatusUndefined => 0
  | TaskStatusWait => 1
  | TaskStatusProcess => 2
  | TaskStatusSuccess => 3
  | TaskStatusFail => 4
  | TaskStatusRepeatWait => 5
  | TaskStatusCancel => 6
  end.

Definition _TaskStatusName : string :=
  "UndefinedWaitProcessSuccessFailRepeatWaitCancel"%string.

Definition _TaskStatusIndex : list nat := [0; 9; 13; 20; 27; 31; 41; 47]%nat.

Definition _TaskStatusValues : list Z := [0; 1; 2; 3; 4; 5; 6].

(** [_TaskStatusName[a:b]] *)
Definition go_slice (s : string) (a b : nat) : string :=
  String.substring a (b - a) s.

Definition idx (n : nat) : nat := nth n _TaskStatusIndex 0%nat.

(** [func (i TaskStatus) String() string] *)
Definition TaskStatus_String (i : Z) : string :=
  if (i <? 0) || (i >=? Z.of_nat (length _TaskStatusIndex) - 1) then
    ("TaskStatus(" ++ NilZero.string_of_int (Z.to_int i) ++ ")")%string
  else go_slice _TaskStatusName (idx (Z.to_nat i)) (idx (S (Z.to_nat i))).

(** [_TaskStatusNameToValueMap], as the association list it is built from. *)
Definition _TaskStatusNameToValueMap : list (string * Z) :=
  [(go_slice _TaskStatusName 0 9, 0); (go_slice _TaskStatusName 9 13, 1);
   (go_slice _TaskStatusName 13 20, 2); (go_slice _TaskStatusName 20 27, 3);
   (go_slice _TaskStatusName 27 31, 4); (go_slice _TaskStatusName 31 41, 5);
   (go_slice _TaskStatusName 41 47, 6)].

Fixpoint assoc_lookup (s : string) (m : list (string * Z)) : option Z :=
  match m with
  | [] => None
  | (k, v) :: m' => if String.eqb k s then Some v else assoc_lookup s m'
  end.

(** [func TaskStatusString(s string) (TaskStatus, error)]: [None] is the
    error return. *)
Definition TaskStatusString (s : string) : option Z :=
  assoc_lookup s _TaskStatusNameToValueMap.

(** [func TaskStatusValues() []TaskStatus] *)
Definition TaskStatusValues : list Z := _TaskStatusValues.

(** [func (i TaskStatus) IsATaskStatus() bool]: the loop over
    [_TaskStatusValues]. *)
Fixpoint IsATaskStatus_loop (i : Z) (vs : list Z) : bool :=
  match vs with
  | [] => false
  | v :: vs' => if Z.eqb i v then true else IsATaskStatus_loop i vs'
  end.

Definition IsATaskStatus (i : Z) : bool := IsATaskStatus_loop i _TaskStatusValues.

(** [workers.WorkerStatus]: the three constants the dispatcher uses. *)
Inductive WorkerStatus := WorkerStatusWait | WorkerStatusProcess | WorkerStatusCancel.

(** Modelled from the spec: the numeric values of the [WorkerStatus]
    constants (the [workers] package file declaring them is not part of
    the sources we have).  The spec lists the worker statuses as
    Wait, Process, Cancel; they are numbered with [iota] in that order,
    as the worker status constants of the sources are. *)
Definition WorkerStatus_int (s : WorkerStatus) : Z :=
  match s with
  | WorkerStatusWait => 0
  | WorkerStatusProcess => 1
  | WorkerStatusCancel => 2
  end.

(** [workers.DispatcherStatus]: the three constants the dispatcher uses. *)
Inductive DispatcherStatus :=
| DispatcherStatusWait | DispatcherStatusProcess | DispatcherStatusCancel.

Definition DispatcherStatus_eqb (a b : DispatcherStatus) : bool :=
  match a, b with
  | DispatcherStatusWait, DispatcherStatusWait
  | DispatcherStatusProcess, DispatcherStatusProcess
  | DispatcherStatusCancel, DispatcherStatusCancel => true
  | _, _ => false
  end.

Definition WorkerStatus_eqb (a b : WorkerStatus) : bool :=
  match a, b with
  | WorkerStatusWait, WorkerStatusWait
  | WorkerStatusProcess, WorkerStatusProcess
  | WorkerStatusCancel, WorkerStatusCancel => true
  | _, _ => false
  end.

(* ------------------------------------------------------------------ *)
(** ** Values, errors, contexts *)

(** An [interface{}] value: [nil] or some opaque non-nil value. *)
Inductive Value := VNil | VVal (n : Z).

(** [ctx.Err()] of a done context. *)
Inductive CtxErr := Canceled | DeadlineExceeded.

Definition CtxErr_eqb (a b : CtxErr) : bool :=
  match a, b with
  | Canceled, Canceled | DeadlineExceeded, DeadlineExceeded => true
  | _, _ => false
  end.

(** A non-nil [error]: a context error or an error with a message
    ([errors.New] or one returned by a task function). *)
Inductive Error := ErrContext (e : CtxErr) | ErrString (msg : string).

(* ------------------------------------------------------------------ *)
(** ** Items *)

(** The fields of a [workers.Task] the dispatcher reads. *)
Record Task := mkTask {
  Repeats : Z;
  RepeatInterval : Z;
  Timeout : Z;
}.

(** [manager.TasksManagerItem]: the task, its status (stored as the
    [int64] of the [workers.Status] it was given), attempts, timestamps
    ([None] = zero [time.Time]) and whether a cancel function is set. *)
Record TasksManagerItem := mkTasksManagerItem {
  ti_task : Task;
  ti_status : Z;
  ti_attempts : Z;
  ti_allow_start_at : option Z;
  ti_first_started_at : option Z;
  ti_last_started_at : option Z;
  ti_cancel : bool;
}.

Definition ti_SetStatus (s : Z) (t : TasksManagerItem) : TasksManagerItem :=
  mkTasksManagerItem (ti_task t) s (ti_attempts t) (ti_allow_start_at t)
    (ti_first_started_at t) (ti_last_started_at t) (ti_cancel t).
Definition ti_SetAttempts (a : Z) (t : TasksManagerItem) : TasksManagerItem :=
  mkTasksManagerItem (ti_task t) (ti_status t) a (ti_allow_start_at t)
    (ti_first_started_at t) (ti_last_started_at t) (ti_cancel t).
Definition ti_SetAllowStartAt (at_ : Z) (t : TasksManagerItem) : TasksManagerItem :=
  mkTasksManagerItem (ti_task t) (ti_status t) (ti_attempts t) (Some at_)
    (ti_first_started_at t) (ti_last_started_at t) (ti_cancel t).
Definition ti_SetFirstStartedAt (at_ : Z) (t : TasksManagerItem) : TasksManagerItem :=
  mkTasksManagerItem (ti_task t) (ti_status t) (ti_attempts t) (ti_allow_start_at t)
    (Some at_) (ti_last_started_at t) (ti_cancel t).
Definition ti_SetLastStartedAt (at_ : Z) (t : TasksManagerItem) : TasksManagerItem :=
  mkTasksManagerItem (ti_task t) (ti_status t) (ti_attempts t) (ti_allow_start_at t)
    (ti_first_started_at t) (Some at_) (ti_cancel t).
Definition ti_SetCancel (c : bool) (t : TasksManagerItem) : TasksManagerItem :=
  mkTasksManagerItem (ti_task t) (ti_status t) (ti_attempts t) (ti_allow_start_at t)
    (ti_first_started_at t) (ti_last_started_at t) c.

(** Modelled from the spec: [manager.NewTasksManagerItem] (not in the
    sources).  A new task item has the given status, no attempts and no
    start timestamps ("attempts == 0 <=> first_started_at unset"). *)
Definition NewTasksManagerItem (t : Task) (s : Z) : TasksManagerItem :=
  mkTasksManagerItem t s 0 None None None false.

(** [manager.WorkersManagerItem]: status, current task (a reference to a
    task item) and whether a cancel function is set. *)
Record WorkersManagerItem := mkWorkersManagerItem {
  wi_status : WorkerStatus;
  wi_task : option nat;
  wi_cancel : bool;
}.

Definition wi_SetStatus (s : WorkerStatus) (w : WorkersManagerItem) : WorkersManagerItem :=
  mkWorkersManagerItem s (wi_task w) (wi_cancel w).
Definition wi_SetTask (t : option nat) (w : WorkersManagerItem) : WorkersManagerItem :=
  mkWorkersManagerItem (wi_status w) t (wi_cancel w).
Definition wi_SetCancel (c : bool) (w : WorkersManagerItem) : WorkersManagerItem :=
  mkWorkersManagerItem (wi_status w) (wi_task w) c.

(* ------------------------------------------------------------------ *)
(** ** Managers, events, results *)

(** The [workers.Manager] interface over references to items of type [I]:
    [Push] returns an error when it refuses the item, [Pull] takes one
    item out (it may consult the items and the current time), [GetAll]
    lists the managed items. *)
Class Manager (I M : Type) := {
  mgr_Push : nat -> M -> M * option string;
  mgr_Pull : Z -> gmap nat I -> M -> option nat * M;
  mgr_Remove : nat -> M -> M;
  mgr_GetAll : M -> list nat;
}.

(** [Manager.GetById]: the reference of the item the manager holds for
    an id, or [nil] when it holds none. *)
Class ManagerGetById (I M : Type) := {
  mgr_GetById : nat -> M -> option nat;
}.

(** The listener events the dispatcher triggers (metadata arguments left
    out). *)
Inductive Event :=
| EventDispatcherStatusChanged (s last : DispatcherStatus)
| EventWorkerStatusChanged (w : nat) (s last : WorkerStatus)
| EventTaskStatusChanged (t : nat) (s last : Z)
| EventTaskExecuteStart (t w : nat)
| EventTaskExecuteStop (t w : nat) (res : Value) (err : option Error)
| EventTaskRemove (t : nat).

(** [SimpleDispatcherResult]: references to the worker and task items. *)
Record SimpleDispatcherResult := mkResult {
  workerItem : nat;
  taskItem : nat;
  result : Value;
  err : option Error;
  cancel : bool;
}.

(** The condition of [notifyAllowExecuteTasks]:
    [d.IsStatus(workers.DispatcherStatusProcess) && len(d.allowExecuteTasks) == 0]. *)
Definition notify_guard (s : DispatcherStatus) (len : nat) : bool :=
  DispatcherStatus_eqb s DispatcherStatusProcess && bool_decide (len = 0%nat).

(* ------------------------------------------------------------------ *)
(** ** The dispatcher state and its monad *)

Section Dispatcher.

Context {WM TM : Type}.
Context `{WMgr : Manager WorkersManagerItem WM}.
Context `{TMgr : Manager TasksManagerItem TM}.
Context `{TGet : ManagerGetById TasksManagerItem TM}.

(** The fields of [SimpleDispatcher] the embedding needs, plus the heaps
    of worker and task items, the [sync.WaitGroup] counter, the
    listener events triggered so far, the [log.Printf] output and the
    [doRunTask] goroutines spawned (worker and task references). *)
Record SimpleDispatcher := mkSimpleDispatcher {
  d_status : DispatcherStatus;
  d_workers : WM;
  d_tasks : TM;
  d_worker_items : gmap nat WorkersManagerItem;
  d_task_items : gmap nat TasksManagerItem;
  d_allowExecuteTasks : nat;
  d_wg : nat;
  d_events : list Event;
  d_log : list string;
  d_goroutines : list (nat * nat);
}.

Definition set_status (s : DispatcherStatus) (d : SimpleDispatcher) :=
  mkSimpleDispatcher s (d_workers d) (d_tasks d) (d_worker_items d) (d_task_items d)
    (d_allowExecuteTasks d) (d_wg d) (d_events d) (d_log d) (d_goroutines d).
Definition set_workers (m : WM) (d : SimpleDispatcher) :=
  mkSimpleDispatcher (d_status d) m (d_tasks d) (d_worker_items d) (d_task_items d)
    (d_allowExecuteTasks d) (d_wg d) (d_events d) (d_log d) (d_goroutines d).
Definition set_tasks (m : TM) (d : SimpleDispatcher) :=
  mkSimpleDispatcher (d_status d) (d_workers d) m (d_worker_items d) (d_task_items d)
    (d_allowExecuteTasks d) (d_wg d) (d_events d) (d_log d) (d_goroutines d).
Definition set_worker_items (h : gmap nat WorkersManagerItem) (d : SimpleDispatcher) :=
  mkSimpleDispatcher (d_status d) (d_workers d) (d_tasks d) h (d_task_items d)
    (d_allowExecuteTasks d) (d_wg d) (d_events d) (d_log d) (d_goroutines d).
Definition set_task_items (h : gmap nat TasksManagerItem) (d : SimpleDispatcher) :=
  mkSimpleDispatcher (d_status d) (d_workers d) (d_tasks d) (d_worker_items d) h
    (d_allowExecuteTasks d) (d_wg d) (d_events d) (d_log d) (d_goroutines d).
Definition set_allowExecuteTasks (n : nat) (d : SimpleDispatcher) :=
  mkSimpleDispatcher (d_status d) (d_workers d) (d_tasks d) (d_worker_items d)
    (d_task_items d) n (d_wg d) (d_events d) (d_log d) (d_goroutines d).
Definition set_events (e : list Event) (d : SimpleDispatcher) :=
  mkSimpleDispatcher (d_status d) (d_workers d) (d_tasks d) (d_worker_items d)
    (d_task_items d) (d_allowExecuteTasks d) (d_wg d) e (d_log d) (d_goroutines d).
Definition set_log (l : list string) (d : SimpleDispatcher) :=
  mkSimpleDispatcher (d_status d) (d_workers d) (d_tasks d) (d_worker_items d)
    (d_task_items d) (d_allowExecuteTasks d) (d_wg d) (d_events d) l (d_goroutines d).
Definition set_goroutines (g : list (nat * nat)) (d : SimpleDispatcher) :=
  mkSimpleDispatcher (d_status d) (d_workers d) (d_tasks d) (d_worker_items d)
    (d_task_items d) (d_allowExecuteTasks d) (d_wg d) (d_events d) (d_log d) g.

(** A dispatcher carrier: [None] means it blocks forever at this point. *)
Definition DM (A : Type) : Type :=
  SimpleDispatcher -> option (A * SimpleDispatcher).

#[global] Instance DM_ret : MRet DM := fun A a d => Some (a, d).
#[global] Instance DM_bind : MBind DM := fun A B f m d =>
  match m d with
  | Some (a, d') => f a d'
  | None => None
  end.

Definition block {A} : DM A := fun _ => None.
Definition gets {A} (f : SimpleDispatcher -> A) : DM A := fun d => Some (f d, d).
Definition modify (f : SimpleDispatcher -> SimpleDispatcher) : DM () :=
  fun d => Some ((), f d).

(** [AsyncTrigger]: the event is handed to the listeners. *)
Definition trigger (e : Event) : DM () :=
  modify (fun d => set_events (d_events d ++ [e]) d).

Definition logPrintf (msg : string) : DM () :=
  modify (fun d => set_log (d_log d ++ [msg]) d).

Definition logOnError (prefix : string) (e : option string) : DM () :=
  match e with
  | Some m => logPrintf (prefix ++ m)
  | None => mret ()
  end.

(** Dereferencing an item reference. *)
Definition load_worker (w : nat) : DM WorkersManagerItem :=
  fun d => match d_worker_items d !! w with
           | Some i => Some (i, d)
           | None => None
           end.
Definition load_task (t : nat) : DM TasksManagerItem :=
  fun d => match d_task_items d !! t with
           | Some i => Some (i, d)
           | None => None
           end.
Definition update_worker (w : nat) (f : WorkersManagerItem -> WorkersManagerItem) : DM () :=
  i ← load_worker w;
  modify (fun d => set_worker_items (<[w := f i]> (d_worker_items d)) d).
Definition update_task (t : nat) (f : TasksManagerItem -> TasksManagerItem) : DM () :=
  i ← load_task t;
  modify (fun d => set_task_items (<[t := f i]> (d_task_items d)) d).

Definition IsStatus (s : DispatcherStatus) : DM bool :=
  gets (fun d => DispatcherStatus_eqb (d_status d) s).
Definition worker_IsStatus (w : nat) (s : WorkerStatus) : DM bool :=
  i ← load_worker w; mret (WorkerStatus_eqb (wi_status i) s).
Definition task_IsStatus (t : nat) (s : TaskStatus) : DM bool :=
  i ← load_task t; mret (bool_decide (ti_status i = TaskStatus_int s)).

(** [setStatusDispatcher], [setStatusWorker], [setStatusTask]: store the
    status and trigger the corresponding StatusChanged event.  A task
    item stores the [int64] of the status it is given. *)
Definition setStatusDispatcher (s : DispatcherStatus) : DM () :=
  last ← gets d_status;
  modify (set_status s);;
  trigger (EventDispatcherStatusChanged s last).
Definition setStatusWorker (w : nat) (s : WorkerStatus) : DM () :=
  i ← load_worker w;
  update_worker w (wi_SetStatus s);;
  trigger (EventWorkerStatusChanged w s (wi_status i)).
Definition setStatusTask (t : nat) (s : Z) : DM () :=
  i ← load_task t;
  update_task t (ti_SetStatus s);;
  trigger (EventTaskStatusChanged t s (ti_status i)).

(** [d.workers.Push], [d.workers.Pull], [d.tasks.Push], ... *)
Definition workersPush (w : nat) : DM (option string) :=
  fun d => let (m, e) := mgr_Push w (d_workers d) in Some (e, set_workers m d).
Definition tasksPush (t : nat) : DM (option string) :=
  fun d => let (m, e) := mgr_Push t (d_tasks d) in Some (e, set_tasks m d).
Definition tasksRemove (t : nat) : DM () :=
  modify (fun d => set_tasks (mgr_Remove t (d_tasks d)) d).
Definition workersPull (now : Z) : DM (option nat) :=
  fun d => let (r, m) := mgr_Pull now (d_worker_items d) (d_workers d) in
           Some (r, set_workers m d).
Definition tasksPull (now : Z) : DM (option nat) :=
  fun d => let (r, m) := mgr_Pull now (d_task_items d) (d_tasks d) in
           Some (r, set_tasks m d).

(** [allowExecuteTasks: make(chan struct{}, 1)] *)
Definition allowExecuteTasks_cap : nat := 1.

(** A send on a buffered channel blocks when the buffer is full. *)
Definition send_allowExecuteTasks : DM () :=
  fun d => if (d_allowExecuteTasks d <? allowExecuteTasks_cap)%nat
           then Some ((), set_allowExecuteTasks (S (d_allowExecuteTasks d)) d)
           else None.

(** [notifyAllowExecuteTasks] *)
Definition notifyAllowExecuteTasks : DM () :=
  g ← gets (fun d => notify_guard (d_status d) (d_allowExecuteTasks d));
  if (g : bool) then send_allowExecuteTasks else mret ().

(* ------------------------------------------------------------------ *)
(** ** [doResultCollector]: the body of the [case result := <-d.results]
    branch, for one envelope [r]; [now] is [time.Now()]. *)

Definition doResultCollector_step (now : Z) (r : SimpleDispatcherResult) : DM () :=
  update_task (taskItem r) (ti_SetCancel false);;
  update_worker (workerItem r) (wi_SetCancel false);;
  c ← IsStatus DispatcherStatusCancel;
  if (c : bool) then mret () (* continue *) else (
  update_worker (workerItem r) (wi_SetTask None);;
  wc ← worker_IsStatus (workerItem r) WorkerStatusCancel;
  (if negb (cancel r) || negb (wc : bool) then
     setStatusWorker (workerItem r) WorkerStatusWait;;
     e ← workersPush (workerItem r);
     logOnError "Push worker failed with error: "%string e
   else mret ());;
  tc ← task_IsStatus (taskItem r) TaskStatusCancel;
  (if negb (cancel r) && negb (tc : bool) then
     setStatusTask (taskItem r)
       (TaskStatus_int (if err r then TaskStatusFail else TaskStatusSuccess));;
     ti ← load_task (taskItem r);
     let repeats := Repeats (ti_task ti) in
     if (repeats <? 0) || (ti_attempts ti <? repeats) then
       let repeatInterval := RepeatInterval (ti_task ti) in
       (if 0 <? repeatInterval
        then update_task (taskItem r) (ti_SetAllowStartAt (now + repeatInterval))
        else mret ());;
       setStatusTask (taskItem r) (TaskStatus_int TaskStatusRepeatWait);;
       e ← tasksPush (taskItem r);
       logOnError "Push task failed with error: "%string e
     else tasksRemove (taskItem r)
   else mret ());;
  trigger (EventTaskExecuteStop (taskItem r) (workerItem r) (result r) (err r));;
  notifyAllowExecuteTasks).

(* ------------------------------------------------------------------ *)
(** ** [doExecuteTasks] *)

(** [go d.doRunTask(castWorker, castTask)]: the goroutine is spawned. *)
Definition go_doRunTask (w t : nat) : DM () :=
  modify (fun d => set_goroutines (d_goroutines d ++ [(w, t)]) d).

(** The [for] loop of [doExecuteTasks], run for at most [fuel]
    iterations; it returns [true] when the loop exits by [return] and
    [false] when the fuel runs out first.  [now] is the time the task
    manager's [Pull] compares [allow_start_at] with. *)
Fixpoint doExecuteTasks_loop (fuel : nat) (now : Z) : DM bool :=
  match fuel with
  | O => mret false
  | S fuel' =>
      pullWorker ← workersPull now;
      pullTask ← tasksPull now;
      match pullWorker, pullTask with
      | Some castWorker, Some castTask =>
          trigger (EventTaskExecuteStart castTask castWorker);;
          go_doRunTask castWorker castTask;;
          doExecuteTasks_loop fuel' now
      | _, _ =>
          (match pullWorker with
           | Some w => _ ← workersPush w; mret ()
           | None => mret ()
           end);;
          (match pullTask with
           | Some t => _ ← tasksPush t; mret ()
           | None => mret ()
           end);;
          mret true
      end
  end.

Definition doExecuteTasks (fuel : nat) (now : Z) : DM bool :=
  p ← IsStatus DispatcherStatusProcess;
  if negb (p : bool) then mret true else doExecuteTasks_loop fuel now.

(* ------------------------------------------------------------------ *)
(** ** [doRunTask] *)

(** The bookkeeping [doRunTask] does before it starts the task function
    (lines [workerItem.SetTask(task)] to [taskItem.SetLastStartedAt(now)]),
    with [now = time.Now()]. *)
Definition doRunTask_start (now : Z) (w t : nat) : DM () :=
  update_worker w (wi_SetTask (Some t));;
  setStatusWorker w WorkerStatusProcess;;
  ti ← load_task t;
  update_task t (ti_SetAttempts (ti_attempts ti + 1));;
  setStatusTask t (TaskStatus_int TaskStatusProcess);;
  ti' ← load_task t;
  (if bool_decide (ti_attempts ti' = 1)
   then update_task t (ti_SetFirstStartedAt now) else mret ());;
  update_task t (ti_SetLastStartedAt now).

(** [taskItem.SetCancel(ctxCancel)] and [workerItem.SetCancel(ctxCancel)],
    once [doRunTask] has made the run's context. *)
Definition doRunTask_setCancel (w t : nat) : DM () :=
  update_task t (ti_SetCancel true);;
  update_worker w (wi_SetCancel true).

(** [RemoveTask(task)]: [item := d.tasks.GetById(task.Id())], with
    [id] the task's id; nothing happens when [item] is [nil]. *)
Definition RemoveTask (id : nat) : DM () :=
  item ← gets (fun d => mgr_GetById id (d_tasks d));
  match item with
  | None => mret ()
  | Some t =>
      setStatusTask t (TaskStatus_int TaskStatusCancel);;
      (* taskItem.Cancel(): cancels the task's context, if it runs *)
      tasksRemove t;;
      trigger (EventTaskRemove t)
  end.

(* ------------------------------------------------------------------ *)
(** ** [Run], after [<-d.ctx.Done()] *)

Fixpoint forEach (l : list nat) (f : nat -> DM ()) : DM () :=
  match l with
  | [] => mret ()
  | x :: l' => f x;; forEach l' f
  end.

(** [d.wg.Wait()]: blocks while carriers are still registered. *)
Definition wg_Wait : DM () :=
  fun d => if (d_wg d =? 0)%nat then Some ((), d) else None.

Definition Run_after_ctx_done : DM (option Error) :=
  setStatusDispatcher DispatcherStatusCancel;;
  ws ← gets (fun d => mgr_GetAll (d_workers d));
  forEach ws (fun w => setStatusWorker w WorkerStatusCancel);;
  ts ← gets (fun d => mgr_GetAll (d_tasks d));
  forEach ts (fun t => setStatusTask t (WorkerStatus_int WorkerStatusCancel));;
  wg_Wait;;
  setStatusDispatcher DispatcherStatusWait;;
  mret None.

(** The beginning of [Run], up to [<-d.ctx.Done()]: the two goroutines
    it starts ([doResultCollector], [doDispatch]) are the steps modelled
    above. *)
Definition Run_start : DM (option Error) :=
  w ← IsStatus DispatcherStatusWait;
  if negb (w : bool) then mret (Some (ErrString "Dispatcher is running"%string)) else (
  setStatusDispatcher DispatcherStatusProcess;;
  notifyAllowExecuteTasks;;
  mret None).

End Dispatcher.

(* ------------------------------------------------------------------ *)
(** ** The task goroutine of [doRunTask] and its [select] *)

(** What the task function does: return [(result, err)] or panic with a
    value. *)
Inductive FnOutcome := FnReturn (res : Value) (e : option Error) | FnPanic (v : Value).

(** The branch the [select] of [doRunTask] takes: [<-ctx.Done()] (with
    [ctx.Err()]) or [r := <-done]. *)
Inductive SelectCase := SelectCtxDone (e : CtxErr) | SelectDone.

(** What the goroutine puts on [done]: the deferred [recover] sends an
    envelope only for a non-nil panic value. *)
Definition done_value (w t : nat) (o : FnOutcome) : option SimpleDispatcherResult :=
  match o with
  | FnReturn res e => Some (mkResult w t res e false)
  | FnPanic v =>
      match v with
      | VNil => None
      | _ => Some (mkResult w t v (Some (ErrString "Panic recovered"%string)) false)
      end
  end.

(** The envelope [doRunTask] sends on [d.results]; [None]: the [done]
    branch is never ready. *)
Definition doRunTask_result (w t : nat) (o : FnOutcome) (sel : SelectCase)
  : option SimpleDispatcherResult :=
  match sel with
  | SelectCtxDone e =>
      Some (mkResult w t VNil (Some (ErrContext e)) (CtxErr_eqb e Canceled))
  | SelectDone => done_value w t o
  end.

(* ------------------------------------------------------------------ *)
(** ** The end of [doRunTask] and the collector, as concurrent carriers

    From line 600 on, three carriers share the channels [done] (capacity
    1) and [d.results] (unbuffered): the goroutine that runs the task
    function with its deferred [recover], the [select] of [doRunTask]
    followed by its send on [d.results], and the [select] of
    [doResultCollector].  [d.ctxCancel()] can happen at any time and
    also makes the run's [ctx] done; when the task has a timeout
    ([timed]) the run's [ctx] can also reach its deadline on its own. *)








(* ------------------------------------------------------------------ *)
(** ** Go's [context] as the dispatcher uses it *)

(** The state of [d.ctx]: [Err()] is [nil] until it is done. *)
Record Context := mkContext { ctx_Err : option CtxErr }.

(** [context.WithCancel(parent)]: a child of a parent context starts done
    when the parent is. *)
Definition WithCancel (parent : Context) : Context := mkContext (ctx_Err parent).

(** The parent becoming done with error [e] propagates to the child. *)
Definition parent_done (e : CtxErr) (c : Context) : Context :=
  match ctx_Err c with
  | None => mkContext (Some e)
  | Some _ => c
  end.

(** A [CancelFunc]: sets [Canceled] unless the context is already done. *)
Definition ctxCancel (c : Context) : Context :=
  match ctx_Err c with
  | None => mkContext (Some Canceled)
  | Some _ => c
  end.

(** [func (d *SimpleDispatcher) Cancel() error]: the new context and the
    returned error. *)
Definition Cancel (c : Context) : Context * option Error :=
  let c' := ctxCancel c in (c', option_map ErrContext (ctx_Err c')).

(* ------------------------------------------------------------------ *)
(** ** Reading the effect of the collector *)

(** The task status changes of task [t] recorded in a list of events, as
    (new, last) pairs. *)
Fixpoint task_status_changes (t : nat) (evs : list Event) : list (Z * Z) :=
  match evs with
  | [] => []
  | EventTaskStatusChanged t' s last :: evs' =>
      if bool_decide (t' = t) then (s, last) :: task_status_changes t evs'
      else task_status_changes t evs'
  | _ :: evs' => task_status_changes t evs'
  end.

(** [doResultCollector] on the worker item, when the dispatcher is not in
    Cancel, and whether the worker is pushed back into the pool. *)
Definition collect_worker (r : SimpleDispatcherResult) (wi : WorkersManagerItem)
  : WorkersManagerItem * bool :=
  let wi0 := wi_SetTask None (wi_SetCancel false wi) in
  if negb (cancel r) || negb (WorkerStatus_eqb (wi_status wi0) WorkerStatusCancel)
  then (wi_SetStatus WorkerStatusWait wi0, true)
  else (wi0, false).

(** The collector, run on envelope [r], returns and appends the status
    changes [ss] to those of task [t]. *)
Definition collector_changes {WM TM} `{Manager WorkersManagerItem WM} `{Manager TasksManagerItem TM}
  (now : Z) (r : SimpleDispatcherResult) (d : SimpleDispatcher (WM:=WM) (TM:=TM))
  (t : nat) (ss : list (Z * Z)) : Prop :=
  exists d', doResultCollector_step now r d = Some ((), d') /\
    task_status_changes t (d_events d') = task_status_changes t (d_events d) ++ ss.

(* ------------------------------------------------------------------ *)
(** ** The life of one task item

    What the dispatcher does to one task item, one code path at a time;
    the lemmas [doRunTask_start_task] and [doResultCollector_step_task]
    show that [start_item] and [collect_item] are the effect of
    [doRunTask_start] and [doResultCollector_step] on the item. *)

Definition start_item (now : Z) (ti : TasksManagerItem) : TasksManagerItem :=
  let ti1 := ti_SetStatus (TaskStatus_int TaskStatusProcess)
               (ti_SetAttempts (ti_attempts ti + 1) ti) in
  let ti2 := if bool_decide (ti_attempts ti1 = 1)
             then ti_SetFirstStartedAt now ti1 else ti1 in
  ti_SetLastStartedAt now ti2.

(** What happens to the task in its manager: pushed back, removed, or
    left alone. *)
Inductive TaskFate := Requeued | Removed | Untouched.

(** [doResultCollector] on the task item, when the dispatcher is not in
    Cancel. *)
Definition collect_item (now : Z) (r : SimpleDispatcherResult) (ti : TasksManagerItem)
  : TasksManagerItem * TaskFate :=
  let ti0 := ti_SetCancel false ti in
  if negb (cancel r) && negb (bool_decide (ti_status ti0 = TaskStatus_int TaskStatusCancel))
  then
    let ti1 := ti_SetStatus
                 (TaskStatus_int (if err r then TaskStatusFail else TaskStatusSuccess)) ti0 in
    let repeats := Repeats (ti_task ti1) in
    if (repeats <? 0) || (ti_attempts ti1 <? repeats) then
      let repeatInterval := RepeatInterval (ti_task ti1) in
      let ti2 := if 0 <? repeatInterval
                 then ti_SetAllowStartAt (now + repeatInterval) ti1 else ti1 in
      (ti_SetStatus (TaskStatus_int TaskStatusRepeatWait) ti2, Requeued)
    else (ti1, Removed)
  else (ti0, Untouched).

(** A task item, whether its manager holds it (it can be pulled), and
    whether a [doRunTask] carrier runs it. *)
Record TaskLife := mkTaskLife {
  tl_item : TasksManagerItem;
  tl_queued : bool;
  tl_running : bool;
}.

Definition queued_after (f : TaskFate) (q : bool) : bool :=
  match f with Requeued => true | Removed => false | Untouched => q end.

(** The steps: [doExecuteTasks] pulls the task and [doRunTask] starts it;
    [doResultCollector] handles its envelope (or drops it while the
    dispatcher is in Cancel); [RemoveTask]; [Run] marks it at shutdown.
    A [Push] that the manager refuses only leaves the task out of the
    queue, so counting it as queued over-approximates the runs. *)
Inductive task_step : TaskLife -> TaskLife -> Prop :=
| ts_start now ti run :
    task_step (mkTaskLife ti true run) (mkTaskLife (start_item now ti) false true)
| ts_collect now r ti q :
    task_step (mkTaskLife ti q true)
      (mkTaskLife (fst (collect_item now r ti))
         (queued_after (snd (collect_item now r ti)) q) false)
| ts_collect_dropped ti q :
    task_step (mkTaskLife ti q true) (mkTaskLife (ti_SetCancel false ti) q false)
| ts_remove ti q run :
    task_step (mkTaskLife ti q run)
      (mkTaskLife (ti_SetStatus (TaskStatus_int TaskStatusCancel) ti) false run)
| ts_shutdown ti q run :
    task_step (mkTaskLife ti q run)
      (mkTaskLife (ti_SetStatus (WorkerStatus_int WorkerStatusCancel) ti) q run).

Inductive task_steps : TaskLife -> TaskLife -> Prop :=
| tss_refl l : task_steps l l
| tss_step l1 l2 l3 : task_step l1 l2 -> task_steps l2 l3 -> task_steps l1 l3.

(** [AddTask]: a new item in Wait, pushed into the task manager. *)
Definition added_task (t : Task) : TaskLife :=
  mkTaskLife (NewTasksManagerItem t (TaskStatus_int TaskStatusWait)) true false.

(* ------------------------------------------------------------------ *)
(** ** Concurrent callers of [notifyAllowExecuteTasks]

    Each caller evaluates the guard, then (if it held) sends; the two
    are separate steps that other carriers may interleave with.  The
    dispatch carrier receives from the channel. *)

Inductive NotifyPc := AtCheck | AtSend | Finished.

Record NotifyState := mkNotifyState {
  ns_status : DispatcherStatus;
  ns_len : nat;            (* len(d.allowExecuteTasks) *)
  ns_pcs : list NotifyPc;  (* one per caller *)
}.

Inductive notify_step : NotifyState -> NotifyState -> Prop :=
| nst_check s len pcs i :
    pcs !! i = Some AtCheck ->
    notify_step (mkNotifyState s len pcs)
      (mkNotifyState s len (<[i := if notify_guard s len then AtSend else Finished]> pcs))
| nst_send s len pcs i :
    pcs !! i = Some AtSend -> (len < allowExecuteTasks_cap)%nat ->
    notify_step (mkNotifyState s len pcs) (mkNotifyState s (S len) (<[i := Finished]> pcs))
| nst_recv s len pcs :
    notify_step (mkNotifyState s (S len) pcs) (mkNotifyState s len pcs).

Inductive notify_steps : NotifyState -> NotifyState -> Prop :=
| nss_refl n : notify_steps n n
| nss_step n1 n2 n3 : notify_step n1 n2 -> notify_steps n2 n3 -> notify_steps n1 n3.

(** Caller [i] is blocked on its send: the buffer is full. *)
Definition send_blocked (n : NotifyState) (i : nat) : Prop :=
  ns_pcs n !! i = Some AtSend /\ ~ (ns_len n < allowExecuteTasks_cap)%nat.

(* ------------------------------------------------------------------ *)
(** ** A list-backed manager, to run the definitions on concrete inputs *)

#[global] Instance ListManager {I : Type} : Manager I (list nat) := {
  mgr_Push := fun i l =>
    if bool_decide (i ∈ l) then (l, Some "item already exists"%string) else (l ++ [i], None);
  mgr_Pull := fun _ _ l => match l with [] => (None, []) | i :: l' => (Some i, l') end;
  mgr_Remove := fun i l => filter (fun j => j <> i) l;
  mgr_GetAll := fun l => l;
}.

(** Its [GetById]: the items are identified by their references. *)
#[global] Instance ListManagerGetById {I : Type} : ManagerGetById I (list nat) := {
  mgr_GetById := fun i l => if bool_decide (i ∈ l) then Some i else None;
}.

Definition example_task : Task := mkTask 3 10 0.

Definition example_dispatcher (s : DispatcherStatus) (ws : WorkerStatus) (ts : Z) (att : Z)
  : SimpleDispatcher (WM:=list nat) (TM:=list nat) :=
  mkSimpleDispatcher s [] []
    {[ 1%nat := mkWorkersManagerItem ws (Some 7%nat) true ]}
    {[ 7%nat := mkTasksManagerItem example_task ts att None (Some 0) (Some 0) true ]}
    0 0 [] [] [].

Definition example_running (ts : Z) (wg : nat) : SimpleDispatcher (WM:=list nat) (TM:=list nat) :=
  mkSimpleDispatcher DispatcherStatusProcess [1%nat] [7%nat]
    {[ 1%nat := mkWorkersManagerItem WorkerStatusProcess None false ]}
    {[ 7%nat := mkTasksManagerItem example_task ts 1 None (Some 0) (Some 0) false ]}
    0 wg [] [] [].

(* ================================================================== *)
(** * Proofs *)

(** ** Running the monad symbolically *)

Lemma task_status_changes_app t l1 l2 :
  task_status_changes t (l1 ++ l2) = task_status_changes t l1 ++ task_status_changes t l2.
Proof. induction l1 as [|[] l1 IH]; simpl; try case_decide; simpl; rewrite ?IH; auto. Qed.


Lemma bind_ok {WM TM} `{Manager WorkersManagerItem WM} `{Manager TasksManagerItem TM} {A B}
  (m : DM (WM:=WM) (TM:=TM) A) (f : A -> DM B) d a d1 :
  m d = Some (a, d1) -> mbind f m d = f a d1.
Proof. intros E. unfold mbind, DM_bind. rewrite E. reflexivity. Qed.

Section Prims.
Context {WM TM : Type} `{Manager WorkersManagerItem WM} `{Manager TasksManagerItem TM}.
Implicit Types d : SimpleDispatcher (WM:=WM) (TM:=TM).

Lemma load_task_ok d t ti : d_task_items d !! t = Some ti -> load_task t d = Some (ti, d).
Proof. intros E. unfold load_task. rewrite E. reflexivity. Qed.
Lemma load_worker_ok d w wi : d_worker_items d !! w = Some wi -> load_worker w d = Some (wi, d).
Proof. intros E. unfold load_worker. rewrite E. reflexivity. Qed.
Lemma update_task_ok d t ti f : d_task_items d !! t = Some ti ->
  update_task t f d = Some ((), set_task_items (<[t := f ti]> (d_task_items d)) d).
Proof. intros E. unfold update_task, mbind, DM_bind. rewrite (load_task_ok d t ti E). reflexivity. Qed.
Lemma update_worker_ok d w wi f : d_worker_items d !! w = Some wi ->
  update_worker w f d = Some ((), set_worker_items (<[w := f wi]> (d_worker_items d)) d).
Proof. intros E. unfold update_worker, mbind, DM_bind. rewrite (load_worker_ok d w wi E). reflexivity. Qed.
Lemma setStatusTask_ok d t ti s : d_task_items d !! t = Some ti ->
  setStatusTask t s d = Some ((), set_events (d_events d ++ [EventTaskStatusChanged t s (ti_status ti)])
                                    (set_task_items (<[t := ti_SetStatus s ti]> (d_task_items d)) d)).
Proof. intros E. unfold setStatusTask, mbind, DM_bind. rewrite (load_task_ok d t ti E).
  rewrite (update_task_ok d t ti _ E). reflexivity. Qed.
Lemma setStatusWorker_ok d w wi s : d_worker_items d !! w = Some wi ->
  setStatusWorker w s d = Some ((), set_events (d_events d ++ [EventWorkerStatusChanged w s (wi_status wi)])
                                    (set_worker_items (<[w := wi_SetStatus s wi]> (d_worker_items d)) d)).
Proof. intros E. unfold setStatusWorker, mbind, DM_bind. rewrite (load_worker_ok d w wi E).
  rewrite (update_worker_ok d w wi _ E). reflexivity. Qed.
Lemma task_IsStatus_ok d t ti s : d_task_items d !! t = Some ti ->
  task_IsStatus t s d = Some (bool_decide (ti_status ti = TaskStatus_int s), d).
Proof. intros E. unfold task_IsStatus, mbind, DM_bind. rewrite (load_task_ok d t ti E). reflexivity. Qed.
Lemma worker_IsStatus_ok d w wi s : d_worker_items d !! w = Some wi ->
  worker_IsStatus w s d = Some (WorkerStatus_eqb (wi_status wi) s, d).
Proof. intros E. unfold worker_IsStatus, mbind, DM_bind. rewrite (load_worker_ok d w wi E). reflexivity. Qed.
Lemma workersPush_ok d w :
  workersPush w d = Some (snd (mgr_Push w (d_workers d)), set_workers (fst (mgr_Push w (d_workers d))) d).
Proof. unfold workersPush. destruct (mgr_Push w (d_workers d)). reflexivity. Qed.
Lemma tasksPush_ok d t :
  tasksPush t d = Some (snd (mgr_Push t (d_tasks d)), set_tasks (fst (mgr_Push t (d_tasks d))) d).
Proof. unfold tasksPush. destruct (mgr_Push t (d_tasks d)). reflexivity. Qed.
Lemma bind_assoc_at {A B C} (m : DM A) (f : A -> DM B) (g : B -> DM C) d :
  mbind g (mbind f m) d = mbind (fun x => mbind g (f x)) m d.
Proof. unfold mbind, DM_bind. destruct (m d) as [[]|]; reflexivity. Qed.
End Prims.

Ltac solve_lookup :=
  cbn -[lookup insert]; rewrite ?lookup_insert_eq; first [reflexivity | eassumption].

Ltac dm_prim :=
  first
    [ apply setStatusTask_ok; solve_lookup
    | apply setStatusWorker_ok; solve_lookup
    | apply update_task_ok; solve_lookup
    | apply update_worker_ok; solve_lookup
    | apply task_IsStatus_ok; solve_lookup
    | apply worker_IsStatus_ok; solve_lookup
    | apply load_task_ok; solve_lookup
    | apply load_worker_ok; solve_lookup
    | apply workersPush_ok
    | apply tasksPush_ok
    | reflexivity ].

Ltac dm_step :=
  lazymatch goal with
  | |- context [ mbind ?f ?m ?d ] => erewrite (bind_ok m f d); [| dm_prim ]; cbn beta
  end.

Ltac dm_simpl :=
  cbn [collect_worker d_status d_workers d_tasks d_worker_items d_task_items d_allowExecuteTasks
       d_wg d_events d_log d_goroutines set_status set_workers set_tasks
       set_worker_items set_task_items set_allowExecuteTasks set_events set_log
       set_goroutines wi_status wi_task wi_cancel wi_SetStatus wi_SetTask wi_SetCancel
       ti_task ti_status ti_attempts ti_allow_start_at ti_first_started_at
       ti_last_started_at ti_cancel ti_SetStatus ti_SetAttempts ti_SetAllowStartAt
       ti_SetFirstStartedAt ti_SetLastStartedAt ti_SetCancel
       negb orb andb DispatcherStatus_eqb WorkerStatus_eqb TaskStatus_int
       workerItem taskItem result err cancel fst snd notify_guard allowExecuteTasks_cap Nat.ltb Nat.leb].

Ltac dm_split :=
  match goal with
  | |- context [ bool_decide ?P ] =>
      let Hb := fresh "Hb" in case_bool_decide as Hb; try subst
  | |- context [ mgr_Push ?a ?b ] =>
      let E := fresh "Epush" in destruct (mgr_Push a b) as [? [?|]] eqn:E
  | |- context [ if ?b then _ else _ ] =>
      lazymatch b with true => fail | false => fail | _ => destruct b eqn:? end
  end; try discriminate; try congruence.

Ltac dm_run :=
  repeat (first [ rewrite bind_assoc_at | dm_step | progress dm_simpl | dm_split ]).


(** ** The collector, on one envelope *)

Lemma doResultCollector_step_spec {WM TM} `{Manager WorkersManagerItem WM} `{Manager TasksManagerItem TM}
  now r (d : SimpleDispatcher (WM:=WM) (TM:=TM)) wi ti :
  d_status d <> DispatcherStatusCancel ->
  d_worker_items d !! workerItem r = Some wi ->
  d_task_items d !! taskItem r = Some ti ->
  exists d', doResultCollector_step now r d = Some ((), d') /\
    d_task_items d' !! taskItem r = Some (fst (collect_item now r ti)) /\
    d_tasks d' = match snd (collect_item now r ti) with
                 | Requeued => fst (mgr_Push (taskItem r) (d_tasks d))
                 | Removed => mgr_Remove (taskItem r) (d_tasks d)
                 | Untouched => d_tasks d
                 end /\
    d_worker_items d' !! workerItem r = Some (fst (collect_worker r wi)) /\
    d_workers d' = (if snd (collect_worker r wi)
                    then fst (mgr_Push (workerItem r) (d_workers d)) else d_workers d) /\
    task_status_changes (taskItem r) (d_events d') =
      task_status_changes (taskItem r) (d_events d) ++
      (if negb (cancel r) && negb (bool_decide (ti_status ti = TaskStatus_int TaskStatusCancel))
       then
         let fs := TaskStatus_int (if err r then TaskStatusFail else TaskStatusSuccess) in
         (fs, ti_status ti) ::
         (if (Repeats (ti_task ti) <? 0) || (ti_attempts ti <? Repeats (ti_task ti))
          then [(TaskStatus_int TaskStatusRepeatWait, fs)] else [])
       else []).
Proof.
  intros Hs Hw Ht. destruct d as [st wm tm wis tis len wg evs lg gs].
  cbn in Hs, Hw, Ht. destruct st; try congruence.
  all: destruct r as [w t res e c]; cbn [workerItem taskItem result err cancel] in *.
  all: destruct wi as [ws wt wc]; destruct c, e, ws.
  all: unfold doResultCollector_step, notifyAllowExecuteTasks, logOnError,
    send_allowExecuteTasks, collect_item, notify_guard.
  all: dm_run.
  all: eexists; split; [reflexivity|]; dm_simpl; rewrite ?lookup_insert_eq.
  all: rewrite ?task_status_changes_app; cbn [task_status_changes];
       rewrite ?(bool_decide_eq_true_2 (t = t)) by reflexivity;
       rewrite <- ?app_assoc; cbn [app].
  all: repeat split; congruence.
Qed.

(** ** The end of [doRunTask]: an invariant for a panicking function *)



(** ** Helpers: the collector's status changes, the start of a run, the task life *)
Lemma collector_changes_spec {WM TM}
  `{Manager WorkersManagerItem WM} `{Manager TasksManagerItem TM}
  now r (d : SimpleDispatcher (WM:=WM) (TM:=TM)) wi ti :
  d_status d <> DispatcherStatusCancel ->
  d_worker_items d !! workerItem r = Some wi ->
  d_task_items d !! taskItem r = Some ti ->
  collector_changes now r d (taskItem r)
    (if negb (cancel r) && negb (bool_decide (ti_status ti = TaskStatus_int TaskStatusCancel))
     then
       (TaskStatus_int (if err r then TaskStatusFail else TaskStatusSuccess), ti_status ti) ::
       (if (Repeats (ti_task ti) <? 0) || (ti_attempts ti <? Repeats (ti_task ti))
        then [(TaskStatus_int TaskStatusRepeatWait,
               TaskStatus_int (if err r then TaskStatusFail else TaskStatusSuccess))] else [])
     else []).
Proof.
  intros Hs Hw Ht.
  destruct (doResultCollector_step_spec now r d wi ti Hs Hw Ht) as (d' & E & _ & _ & _ & _ & Hch).
  exists d'. split; [exact E | exact Hch].
Qed.

Lemma collector_changes_fail {WM TM}
  `{Manager WorkersManagerItem WM} `{Manager TasksManagerItem TM}
  now r (d : SimpleDispatcher (WM:=WM) (TM:=TM)) wi ti e :
  d_status d <> DispatcherStatusCancel ->
  d_worker_items d !! workerItem r = Some wi ->
  d_task_items d !! taskItem r = Some ti ->
  ti_status ti <> TaskStatus_int TaskStatusCancel ->
  cancel r = false -> err r = Some e ->
  exists rest, collector_changes now r d (taskItem r)
                 ((TaskStatus_int TaskStatusFail, ti_status ti) :: rest).
Proof.
  intros Hs Hw Ht Hti Hc He.
  pose proof (collector_changes_spec now r d wi ti Hs Hw Ht) as C.
  rewrite Hc, He, bool_decide_false in C by exact Hti. eexists. exact C.
Qed.

Lemma doRunTask_start_task {WM TM}
  `{Manager WorkersManagerItem WM} `{Manager TasksManagerItem TM}
  now w t (d : SimpleDispatcher (WM:=WM) (TM:=TM)) wi ti :
  d_worker_items d !! w = Some wi ->
  d_task_items d !! t = Some ti ->
  exists d', doRunTask_start now w t d = Some ((), d') /\
    d_task_items d' !! t = Some (start_item now ti) /\
    task_status_changes t (d_events d') =
      task_status_changes t (d_events d) ++ [(TaskStatus_int TaskStatusProcess, ti_status ti)].
Proof.
  intros Hw Ht. destruct d as [st wm tm wis tis len wg evs lg gs]; cbn in Hw, Ht.
  unfold doRunTask_start, start_item.
  dm_run.
  all: try (erewrite update_task_ok; [|solve_lookup]).
  all: try (unfold load_task, modify; dm_simpl; rewrite ?lookup_insert_eq; cbn beta iota).
  all: eexists; split; [reflexivity|]; dm_simpl; rewrite ?lookup_insert_eq.
  all: rewrite ?task_status_changes_app; cbn [task_status_changes];
       rewrite ?(bool_decide_eq_true_2 (t = t)) by reflexivity; rewrite ?app_nil_r.
  all: split; [|reflexivity].
  all: rewrite ?bool_decide_true by lia; rewrite ?bool_decide_false by lia; reflexivity.
Qed.

(** The invariant of attempts and first start. *)
Lemma task_steps_first_started tk l :
  task_steps (added_task tk) l ->
  0 <= ti_attempts (tl_item l) /\
  (ti_attempts (tl_item l) = 0 <-> ti_first_started_at (tl_item l) = None).
Proof.
  intros Hs.
  remember (added_task tk) as l0 eqn:E.
  assert (I0 : 0 <= ti_attempts (tl_item l0) /\
               (ti_attempts (tl_item l0) = 0 <-> ti_first_started_at (tl_item l0) = None)).
  { subst l0. cbn. split; [lia|]. split; reflexivity. }
  clear E. induction Hs as [l|l1 l2 l3 Hst _ IH]; [exact I0|]. apply IH. clear IH.
  destruct Hst as [now ti run|now r ti q|ti q|ti q run|ti q run]; cbn in *.
  - unfold start_item. cbn. destruct I0 as [Hnn [Hi Hi']].
    case_bool_decide as Hb; cbn; split; try lia.
    + split; [lia|discriminate].
    + split; [lia|]. intros Hf. exfalso. assert (ti_attempts ti = 0) by tauto. lia.
  - unfold collect_item. destruct (negb (cancel r) && _); [|exact I0].
    destruct (_ || _); [destruct (0 <? _)|]; exact I0.
  - exact I0.
  - exact I0.
  - exact I0.
Qed.

(** The retry bound for a task with a non-negative [Repeats]. *)
Lemma task_steps_attempts_bound tk l :
  task_steps (added_task tk) l -> 0 <= Repeats tk ->
  ti_task (tl_item l) = tk /\ 0 <= ti_attempts (tl_item l) <= Z.max 1 (Repeats tk) /\
  (tl_queued l = true -> ti_attempts (tl_item l) = 0 \/ ti_attempts (tl_item l) < Repeats tk).
Proof.
  intros Hs HR.
  remember (added_task tk) as l0 eqn:E.
  assert (I0 : ti_task (tl_item l0) = tk /\ 0 <= ti_attempts (tl_item l0) <= Z.max 1 (Repeats tk) /\
               (tl_queued l0 = true -> ti_attempts (tl_item l0) = 0 \/
                                       ti_attempts (tl_item l0) < Repeats tk)).
  { subst l0. cbn. split; [reflexivity|]. split; [lia|]. intros _. left. reflexivity. }
  clear E. induction Hs as [l|l1 l2 l3 Hst _ IH]; [exact I0|]. apply IH. clear IH.
  destruct Hst as [now ti run|now r ti q|ti q|ti q run|ti q run]; cbn in *;
    destruct I0 as [Ht [Hb Hq]].
  - unfold start_item. case_bool_decide; cbn; (split; [exact Ht|]);
      (split; [|discriminate]); specialize (Hq eq_refl); lia.
  - unfold collect_item. destruct (negb (cancel r) && _) eqn:Ec; cbn; [|auto].
    destruct ((Repeats (ti_task ti) <? 0) || (ti_attempts ti <? Repeats (ti_task ti))) eqn:Er;
      [destruct (0 <? _)|]; cbn; (split; [exact Ht|]); (split; [exact Hb|]);
      try discriminate.
    all: intros _; right; subst tk; apply orb_true_iff in Er as [Er|Er];
         [apply Z.ltb_lt in Er; lia | apply Z.ltb_lt in Er; lia].
  - auto.
  - split; [exact Ht|]. split; [exact Hb|discriminate].
  - auto.
Qed.

(* ================================================================== *)
(** * The claims *)

(** C1: while the dispatcher is not in Cancel, for an envelope that is not a
    cancellation and a task not in Cancel, the collector sets the task to
    Fail (error) or Success; then, when [Repeats < 0] or
    [attempts < Repeats], it sets [allow_start_at] (positive interval),
    RepeatWait and pushes the task back, and otherwise removes it. *)
Theorem C1_collector_sets_status_and_requeues {WM TM}
  `{Manager WorkersManagerItem WM} `{Manager TasksManagerItem TM}
  now r (d : SimpleDispatcher (WM:=WM) (TM:=TM)) wi ti :
  d_status d <> DispatcherStatusCancel ->
  d_worker_items d !! workerItem r = Some wi ->
  d_task_items d !! taskItem r = Some ti ->
  cancel r = false ->
  ti_status ti <> TaskStatus_int TaskStatusCancel ->
  let fs := TaskStatus_int (if err r then TaskStatusFail else TaskStatusSuccess) in
  let repeats := Repeats (ti_task ti) in
  let ti1 := ti_SetStatus fs (ti_SetCancel false ti) in
  exists d', doResultCollector_step now r d = Some ((), d') /\
  if (repeats <? 0) || (ti_attempts ti <? repeats) then
    task_status_changes (taskItem r) (d_events d') =
      task_status_changes (taskItem r) (d_events d) ++
      [(fs, ti_status ti); (TaskStatus_int TaskStatusRepeatWait, fs)] /\
    d_task_items d' !! taskItem r =
      Some (ti_SetStatus (TaskStatus_int TaskStatusRepeatWait)
              (if 0 <? RepeatInterval (ti_task ti)
               then ti_SetAllowStartAt (now + RepeatInterval (ti_task ti)) ti1 else ti1)) /\
    d_tasks d' = fst (mgr_Push (taskItem r) (d_tasks d))
  else
    task_status_changes (taskItem r) (d_events d') =
      task_status_changes (taskItem r) (d_events d) ++ [(fs, ti_status ti)] /\
    d_task_items d' !! taskItem r = Some ti1 /\
    d_tasks d' = mgr_Remove (taskItem r) (d_tasks d).
Proof.
  intros Hs Hw Ht Hc Hti fs repeats ti1.
  destruct (doResultCollector_step_spec now r d wi ti Hs Hw Ht)
    as (d' & E & Hit & Htm & _ & _ & Hch).
  exists d'. split; [exact E|].
  unfold collect_item in Hit, Htm. unfold collect_item in Hch.
  rewrite Hc in Hit, Htm, Hch. cbn [negb andb ti_status ti_SetCancel] in Hit, Htm, Hch.
  rewrite bool_decide_false in Hit, Htm, Hch by exact Hti.
  cbn [negb andb ti_status ti_task ti_attempts ti_SetCancel fst snd] in Hit, Htm, Hch.
  subst fs repeats ti1.
  cbn [ti_task ti_attempts ti_status ti_SetStatus ti_SetCancel] in Hit, Htm, Hch.
  destruct ((Repeats (ti_task ti) <? 0) || (ti_attempts ti <? Repeats (ti_task ti)));
    cbn [fst snd] in Hit, Htm; repeat split; assumption.
Qed.

Lemma C1_witness :
  let d := example_dispatcher DispatcherStatusProcess WorkerStatusProcess 2 1 in
  let r := mkResult 1 7 VNil None false in
  d_status d <> DispatcherStatusCancel /\
  d_worker_items d !! workerItem r = Some (mkWorkersManagerItem WorkerStatusProcess (Some 7%nat) true) /\
  d_task_items d !! taskItem r = Some (mkTasksManagerItem example_task 2 1 None (Some 0) (Some 0) true) /\
  cancel r = false /\ 2 <> TaskStatus_int TaskStatusCancel /\
  exists d', doResultCollector_step 100 r d = Some ((), d').
Proof.
  intros d r.
  assert (H1 : d_status d <> DispatcherStatusCancel) by discriminate.
  assert (H2 : d_worker_items d !! workerItem r = Some (mkWorkersManagerItem WorkerStatusProcess (Some 7%nat) true)) by reflexivity.
  assert (H3 : d_task_items d !! taskItem r = Some (mkTasksManagerItem example_task 2 1 None (Some 0) (Some 0) true)) by reflexivity.
  assert (H4 : cancel r = false) by reflexivity.
  assert (H5 : 2 <> TaskStatus_int TaskStatusCancel) by discriminate.
  destruct (C1_collector_sets_status_and_requeues 100 r d _ _ H1 H2 H3 H4 H5) as [d' [E _]].
  repeat split; try assumption. exists d'. exact E.
Defined.
(** C3 (amended): the status the collector gives a task first is Fail for
    a function error, a recovered panic and an elapsed timeout
    (DeadlineExceeded); a Canceled envelope has [cancel = true] and the
    collector does not change the task status; no status is named
    FailByTimeout. *)
Theorem C3_collector_failure_classification {WM TM}
  `{Manager WorkersManagerItem WM} `{Manager TasksManagerItem TM}
  now (d : SimpleDispatcher (WM:=WM) (TM:=TM)) w t wi ti :
  d_status d <> DispatcherStatusCancel ->
  d_worker_items d !! w = Some wi ->
  d_task_items d !! t = Some ti ->
  ti_status ti <> TaskStatus_int TaskStatusCancel ->
  (forall res e, exists r rest,
     doRunTask_result w t (FnReturn res (Some e)) SelectDone = Some r /\
     collector_changes now r d t ((TaskStatus_int TaskStatusFail, ti_status ti) :: rest)) /\
  (forall v, v <> VNil -> exists r rest,
     doRunTask_result w t (FnPanic v) SelectDone = Some r /\
     collector_changes now r d t ((TaskStatus_int TaskStatusFail, ti_status ti) :: rest)) /\
  (forall o, exists r rest,
     doRunTask_result w t o (SelectCtxDone DeadlineExceeded) = Some r /\
     collector_changes now r d t ((TaskStatus_int TaskStatusFail, ti_status ti) :: rest)) /\
  (forall o, exists r,
     doRunTask_result w t o (SelectCtxDone Canceled) = Some r /\ cancel r = true /\
     collector_changes now r d t []) /\
  TaskStatusString "FailByTimeout" = None.
Proof.
  intros Hs Hw Ht Hti. split; [|split; [|split; [|split]]].
  - intros res e.
    destruct (collector_changes_fail now (mkResult w t res (Some e) false) d wi ti e
                Hs Hw Ht Hti eq_refl eq_refl) as [rest C].
    exists (mkResult w t res (Some e) false), rest. split; [reflexivity | exact C].
  - intros v Hv. destruct v as [|n]; [congruence|].
    destruct (collector_changes_fail now
                (mkResult w t (VVal n) (Some (ErrString "Panic recovered")) false) d wi ti _
                Hs Hw Ht Hti eq_refl eq_refl) as [rest C].
    eexists _, rest. split; [reflexivity | exact C].
  - intros o.
    destruct (collector_changes_fail now
                (mkResult w t VNil (Some (ErrContext DeadlineExceeded)) false) d wi ti _
                Hs Hw Ht Hti eq_refl eq_refl) as [rest C].
    eexists _, rest. split; [reflexivity | exact C].
  - intros o. eexists. split; [reflexivity|]. split; [reflexivity|].
    exact (collector_changes_spec now (mkResult w t VNil (Some (ErrContext Canceled)) true)
             d wi ti Hs Hw Ht).
  - reflexivity.
Qed.

Lemma C3_witness :
  let d := example_dispatcher DispatcherStatusProcess WorkerStatusProcess 2 1 in
  d_status d <> DispatcherStatusCancel /\
  d_worker_items d !! 1%nat = Some (mkWorkersManagerItem WorkerStatusProcess (Some 7%nat) true) /\
  d_task_items d !! 7%nat = Some (mkTasksManagerItem example_task 2 1 None (Some 0) (Some 0) true) /\
  2 <> TaskStatus_int TaskStatusCancel /\
  TaskStatusString "FailByTimeout" = None.
Proof.
  intros d.
  assert (H1 : d_status d <> DispatcherStatusCancel) by discriminate.
  assert (H2 : d_worker_items d !! 1%nat = Some (mkWorkersManagerItem WorkerStatusProcess (Some 7%nat) true)) by reflexivity.
  assert (H3 : d_task_items d !! 7%nat = Some (mkTasksManagerItem example_task 2 1 None (Some 0) (Some 0) true)) by reflexivity.
  assert (H4 : 2 <> TaskStatus_int TaskStatusCancel) by discriminate.
  destruct (C3_collector_failure_classification 100 d 1 7 _ _ H1 H2 H3 H4) as (_ & _ & _ & _ & H5).
  repeat split; assumption.
Defined.

(** C3 counterexample: an elapsed per-task timeout ends in Fail (then
    RepeatWait), and there is no FailByTimeout status. *)
Lemma C3_counterexample :
  let d := example_dispatcher DispatcherStatusProcess WorkerStatusProcess 2 1 in
  exists r,
    doRunTask_result 1 7 (FnReturn VNil None) (SelectCtxDone DeadlineExceeded) = Some r /\
    collector_changes 100 r d 7 [(TaskStatus_int TaskStatusFail, 2);
                                 (TaskStatus_int TaskStatusRepeatWait, TaskStatus_int TaskStatusFail)] /\
    TaskStatusString "FailByTimeout" = None.
Proof.
  intros d. exists (mkResult 1 7 VNil (Some (ErrContext DeadlineExceeded)) false).
  split; [reflexivity|]. split; [|vm_compute; reflexivity].
  unfold collector_changes.
  destruct (doResultCollector_step 100 (mkResult 1 7 VNil (Some (ErrContext DeadlineExceeded)) false) d)
    as [[[] d']|] eqn:E; vm_compute in E; [|discriminate].
  injection E as <-. eexists. split; [reflexivity|]. vm_compute. reflexivity.
Qed.

(** C5 (amended): the collector clears the worker's task and cancel, and
    sets it to Wait and pushes it back unless the envelope is a
    cancellation and the worker is in Cancel; a worker in Cancel with a
    non-cancellation envelope is set to Wait and reused. *)
Theorem C5_collector_releases_worker {WM TM}
  `{Manager WorkersManagerItem WM} `{Manager TasksManagerItem TM}
  now r (d : SimpleDispatcher (WM:=WM) (TM:=TM)) wi ti :
  d_status d <> DispatcherStatusCancel ->
  d_worker_items d !! workerItem r = Some wi ->
  d_task_items d !! taskItem r = Some ti ->
  let reused := negb (cancel r) || negb (WorkerStatus_eqb (wi_status wi) WorkerStatusCancel) in
  exists d', doResultCollector_step now r d = Some ((), d') /\
    d_worker_items d' !! workerItem r =
      Some (mkWorkersManagerItem (if reused then WorkerStatusWait else wi_status wi) None false) /\
    d_workers d' = (if reused then fst (mgr_Push (workerItem r) (d_workers d)) else d_workers d).
Proof.
  intros Hs Hw Ht reused.
  destruct (doResultCollector_step_spec now r d wi ti Hs Hw Ht) as (d' & E & _ & _ & Hwi & Hwm & _).
  exists d'. split; [exact E|]. subst reused. unfold collect_worker in Hwi, Hwm.
  destruct wi as [ws wt wc]. cbn [wi_status wi_SetTask wi_SetCancel wi_SetStatus] in *.
  destruct (negb (cancel r) || negb (WorkerStatus_eqb ws WorkerStatusCancel));
    cbn [fst snd] in Hwi, Hwm; split; assumption.
Qed.

Lemma C5_witness :
  let d := example_dispatcher DispatcherStatusProcess WorkerStatusCancel 2 1 in
  let r := mkResult 1 7 VNil None true in
  d_status d <> DispatcherStatusCancel /\
  d_worker_items d !! workerItem r = Some (mkWorkersManagerItem WorkerStatusCancel (Some 7%nat) true) /\
  d_task_items d !! taskItem r = Some (mkTasksManagerItem example_task 2 1 None (Some 0) (Some 0) true) /\
  exists d', doResultCollector_step 100 r d = Some ((), d') /\
    d_worker_items d' !! 1%nat = Some (mkWorkersManagerItem WorkerStatusCancel None false) /\
    d_workers d' = [].
Proof.
  intros d r.
  assert (H1 : d_status d <> DispatcherStatusCancel) by discriminate.
  assert (H2 : d_worker_items d !! workerItem r = Some (mkWorkersManagerItem WorkerStatusCancel (Some 7%nat) true)) by reflexivity.
  assert (H3 : d_task_items d !! taskItem r = Some (mkTasksManagerItem example_task 2 1 None (Some 0) (Some 0) true)) by reflexivity.
  destruct (C5_collector_releases_worker 100 r d _ _ H1 H2 H3) as (d' & E & Hw & Hm).
  repeat split; try assumption. exists d'. split; [exact E|]. split; assumption.
Defined.

(** C5 counterexample: a worker in Cancel whose envelope is not a
    cancellation is set to Wait and pushed back into the pool. *)
Lemma C5_counterexample :
  let d := example_dispatcher DispatcherStatusProcess WorkerStatusCancel 2 1 in
  d_worker_items d !! 1%nat = Some (mkWorkersManagerItem WorkerStatusCancel (Some 7%nat) true) /\
  exists d', doResultCollector_step 100 (mkResult 1 7 VNil None false) d = Some ((), d') /\
    d_worker_items d' !! 1%nat = Some (mkWorkersManagerItem WorkerStatusWait None false) /\
    d_workers d' = [1%nat].
Proof.
  intros d. split; [reflexivity|].
  destruct (doResultCollector_step 100 (mkResult 1 7 VNil None false) d)
    as [[[] d']|] eqn:E; vm_compute in E; [|discriminate].
  injection E as <-. eexists. split; [reflexivity|]. split; vm_compute; reflexivity.
Qed.

(** C6 (amended): when the dispatcher is not in Process, [doExecuteTasks]
    returns without pulling; in Process, one iteration pulls a worker and
    a task, launches [doRunTask] when both are there and loops, and
    otherwise pushes back what it pulled and returns. *)
Theorem C6_doExecuteTasks_iteration {WM TM}
  `{Manager WorkersManagerItem WM} `{Manager TasksManagerItem TM}
  fuel now (d : SimpleDispatcher (WM:=WM) (TM:=TM)) :
  (d_status d <> DispatcherStatusProcess -> doExecuteTasks fuel now d = Some (true, d)) /\
  (d_status d = DispatcherStatusProcess ->
   let (pw, wm) := mgr_Pull now (d_worker_items d) (d_workers d) in
   let (pt, tm) := mgr_Pull now (d_task_items d) (d_tasks d) in
   doExecuteTasks (S fuel) now d =
   match pw, pt with
   | Some w, Some t =>
       doExecuteTasks_loop fuel now
         (set_goroutines (d_goroutines d ++ [(w, t)])
            (set_events (d_events d ++ [EventTaskExecuteStart t w])
               (set_tasks tm (set_workers wm d))))
   | _, _ =>
       Some (true,
             set_tasks (match pt with Some t => fst (mgr_Push t tm) | None => tm end)
               (set_workers (match pw with Some w => fst (mgr_Push w wm) | None => wm end) d))
   end).
Proof.
  destruct d as [st wm tm wis tis len wg evs lg gs]; cbn [d_status].
  split.
  - intros Hs. destruct st; try congruence; reflexivity.
  - intros ->. cbn [d_workers d_tasks d_worker_items d_task_items].
    destruct (mgr_Pull now wis wm) as [pw wm'] eqn:Ew.
    destruct (mgr_Pull now tis tm) as [pt tm'] eqn:Et.
    unfold doExecuteTasks. cbn [doExecuteTasks_loop].
    unfold mbind, DM_bind, mret, DM_ret, IsStatus, gets, workersPull, tasksPull,
      trigger, go_doRunTask, modify, workersPush, tasksPush.
    cbn -[mgr_Push mgr_Pull doExecuteTasks_loop]. rewrite Ew.
    cbn -[mgr_Push mgr_Pull doExecuteTasks_loop]. rewrite Et.
    destruct pw as [w|], pt as [t|]; cbn -[mgr_Push doExecuteTasks_loop];
      repeat match goal with |- context [mgr_Push ?a ?b] => destruct (mgr_Push a b) end;
      reflexivity.
Qed.
(** C4: after [<-d.ctx.Done()], [Run] sets the dispatcher to Cancel, the
    managed workers to Cancel, waits on the WaitGroup and returns nil with
    the dispatcher in Wait; but the managed tasks get the int64 of
    [WorkerStatusCancel], which is not [TaskStatusCancel]: a task waiting
    in RepeatWait ends in status 2, printed "Process". *)
Theorem C4_run_shutdown_task_status :
  (exists d', Run_after_ctx_done (example_running 5 0) = Some (None, d') /\
     d_status d' = DispatcherStatusWait /\
     option_map wi_status (d_worker_items d' !! 1%nat) = Some WorkerStatusCancel /\
     option_map ti_status (d_task_items d' !! 7%nat) = Some (WorkerStatus_int WorkerStatusCancel)) /\
  WorkerStatus_int WorkerStatusCancel <> TaskStatus_int TaskStatusCancel /\
  TaskStatus_String (WorkerStatus_int WorkerStatusCancel) = "Process"%string /\
  Run_after_ctx_done (example_running 5 1) = None.
Proof.
  split; [|split; [discriminate|split; vm_compute; reflexivity]].
  destruct (Run_after_ctx_done (example_running 5 0)) as [[e d']|] eqn:E;
    vm_compute in E; [|discriminate].
  injection E as <- <-. eexists. split; [reflexivity|].
  split; [reflexivity|]. split; vm_compute; reflexivity.
Qed.




(** C9: the channel has capacity 1, but the length check and the send of
    [notifyAllowExecuteTasks] are not atomic: two callers that both see an
    empty channel both send, and the second blocks on a full buffer. *)
Theorem C9_notify_send_can_block :
  allowExecuteTasks_cap = 1%nat /\
  exists n, notify_steps (mkNotifyState DispatcherStatusProcess 0 [AtCheck; AtCheck]) n /\
            send_blocked n 1 /\ ns_len n = 1%nat.
Proof.
  split; [reflexivity|]. eexists. split.
  - eapply nss_step; [apply (nst_check _ _ _ 0); reflexivity|]. cbn.
    eapply nss_step; [apply (nst_check _ _ _ 1); reflexivity|]. cbn.
    eapply nss_step; [apply (nst_send _ _ _ 0); [reflexivity|cbv; lia]|]. cbn.
    apply nss_refl.
  - split; [split; [reflexivity|cbv; lia]|reflexivity].
Qed.

(** C10 (amended): [Cancel] always returns a non-nil error: [Canceled],
    unless the context was already done with another error, which is
    then returned. *)
Theorem C10_cancel_returns_ctx_err c :
  snd (Cancel c) <> None /\
  snd (Cancel c) = Some (ErrContext (match ctx_Err c with None => Canceled | Some e => e end)).
Proof. unfold Cancel, ctxCancel. destruct (ctx_Err c) eqn:E; cbn; rewrite ?E; split; try discriminate; reflexivity. Qed.

Lemma C10_counterexample :
  Cancel (parent_done DeadlineExceeded (WithCancel (mkContext None))) =
    (mkContext (Some DeadlineExceeded), Some (ErrContext DeadlineExceeded)).
Proof. reflexivity. Qed.

Lemma C6_counterexample :
  let d := example_running 5 0 in
  mgr_Pull 0 (d_worker_items d) (d_workers d) = (Some 1%nat, []) /\
  mgr_Pull 0 (d_task_items d) (d_tasks d) = (Some 7%nat, []) /\
  doExecuteTasks 3 0 (set_status DispatcherStatusCancel d) =
    Some (true, set_status DispatcherStatusCancel d).
Proof. intros d. split; [reflexivity|]. split; reflexivity. Qed.
(** C7: [doRunTask] marks the task Process, adds one attempt, stamps
    [last_started_at] and stamps [first_started_at] exactly when the new
    attempts count is 1; over the life of a task added by [AddTask],
    [attempts = 0] holds iff [first_started_at] is unset. *)
Theorem C7_dispatch_start_and_first_started {WM TM}
  `{Manager WorkersManagerItem WM} `{Manager TasksManagerItem TM}
  now w t (d : SimpleDispatcher (WM:=WM) (TM:=TM)) wi ti :
  d_worker_items d !! w = Some wi ->
  d_task_items d !! t = Some ti ->
  (exists d', doRunTask_start now w t d = Some ((), d') /\
     d_task_items d' !! t =
       Some (mkTasksManagerItem (ti_task ti) (TaskStatus_int TaskStatusProcess)
               (ti_attempts ti + 1) (ti_allow_start_at ti)
               (if bool_decide (ti_attempts ti + 1 = 1) then Some now
                else ti_first_started_at ti)
               (Some now) (ti_cancel ti)) /\
     task_status_changes t (d_events d') =
       task_status_changes t (d_events d) ++ [(TaskStatus_int TaskStatusProcess, ti_status ti)]) /\
  (forall tk l, task_steps (added_task tk) l ->
     ti_attempts (tl_item l) = 0 <-> ti_first_started_at (tl_item l) = None).
Proof.
  intros Hw Ht. split.
  - destruct (doRunTask_start_task now w t d wi ti Hw Ht) as (d' & E & Hi & Hc).
    exists d'. split; [exact E|]. split; [|exact Hc]. rewrite Hi. unfold start_item.
    cbn. case_bool_decide; reflexivity.
  - intros tk l Hs. apply (task_steps_first_started tk l Hs).
Qed.

Lemma C7_witness :
  let d := example_dispatcher DispatcherStatusProcess WorkerStatusWait 5 0 in
  d_worker_items d !! 1%nat = Some (mkWorkersManagerItem WorkerStatusWait (Some 7%nat) true) /\
  d_task_items d !! 7%nat = Some (mkTasksManagerItem example_task 5 0 None (Some 0) (Some 0) true) /\
  exists d', doRunTask_start 100 1 7 d = Some ((), d').
Proof.
  intros d.
  assert (H1 : d_worker_items d !! 1%nat = Some (mkWorkersManagerItem WorkerStatusWait (Some 7%nat) true)) by reflexivity.
  assert (H2 : d_task_items d !! 7%nat = Some (mkTasksManagerItem example_task 5 0 None (Some 0) (Some 0) true)) by reflexivity.
  destruct (C7_dispatch_start_and_first_started 100 1 7 d _ _ H1 H2) as [(d' & E & _) _].
  split; [exact H1|]. split; [exact H2|]. exists d'. exact E.
Defined.

(** C2 (amended): for a task added with [Repeats = N >= 0], attempts never
    exceed [max 1 N] (N = 0 still runs once); for [Repeats < 0], every
    collected envelope that is not a cancellation, on a task not in
    Cancel, puts the task back in RepeatWait and into the queue. *)
Theorem C2_retry_bound tk l :
  task_steps (added_task tk) l ->
  (0 <= Repeats tk -> ti_attempts (tl_item l) <= Z.max 1 (Repeats tk)) /\
  (forall WM TM (HW : Manager WorkersManagerItem WM) (HT : Manager TasksManagerItem TM)
          now r (d : SimpleDispatcher (WM:=WM) (TM:=TM)) wi ti,
     d_status d <> DispatcherStatusCancel ->
     d_worker_items d !! workerItem r = Some wi ->
     d_task_items d !! taskItem r = Some ti ->
     Repeats (ti_task ti) < 0 -> cancel r = false ->
     ti_status ti <> TaskStatus_int TaskStatusCancel ->
     exists d', doResultCollector_step now r d = Some ((), d') /\
       option_map ti_status (d_task_items d' !! taskItem r) = Some (TaskStatus_int TaskStatusRepeatWait) /\
       d_tasks d' = fst (mgr_Push (taskItem r) (d_tasks d))).
Proof.
  intros Hs. split.
  - intros HR. destruct (task_steps_attempts_bound tk l Hs HR) as (_ & Hb & _). lia.
  - intros WM TM HW HT now r d wi ti Hst Hw Ht HR Hc Hti.
    destruct (doResultCollector_step_spec now r d wi ti Hst Hw Ht) as (d' & E & Hi & Htm & _).
    exists d'. split; [exact E|].
    unfold collect_item in Hi, Htm. rewrite Hc in Hi, Htm.
    rewrite bool_decide_false in Hi, Htm by exact Hti.
    cbn [negb andb ti_SetCancel ti_task ti_attempts ti_status ti_SetStatus] in Hi, Htm.
    assert (E2 : (Repeats (ti_task ti) <? 0) = true) by (apply Z.ltb_lt; exact HR).
    rewrite E2 in Hi, Htm. cbn [orb fst snd] in Hi, Htm. rewrite Hi. split; [|exact Htm].
    destruct (0 <? _); reflexivity.
Qed.

Lemma C2_witness :
  let tk := mkTask 2 0 0 in
  let l := mkTaskLife (start_item 5 (NewTasksManagerItem tk (TaskStatus_int TaskStatusWait))) false true in
  task_steps (added_task tk) l /\ ti_attempts (tl_item l) <= Z.max 1 (Repeats tk).
Proof.
  intros tk l.
  assert (Hs : task_steps (added_task tk) l).
  { eapply tss_step; [apply ts_start|apply tss_refl]. }
  split; [exact Hs|]. apply (proj1 (C2_retry_bound tk l Hs)). cbn. lia.
Defined.

(** Repeats = 0: the task is started once, one attempt more than N. *)
Lemma C2_counterexample :
  let tk := mkTask 0 0 0 in
  let l := mkTaskLife (start_item 5 (NewTasksManagerItem tk (TaskStatus_int TaskStatusWait))) false true in
  task_steps (added_task tk) l /\ ti_attempts (tl_item l) = 1 /\ Repeats tk = 0.
Proof.
  intros tk l. split; [|split; reflexivity].
  eapply tss_step; [apply ts_start|apply tss_refl].
Qed.

(* ================================================================== *)
(** * Further properties of the code *)

(** ** The enumer of [TaskStatus] *)

Lemma IsATaskStatus_range i : IsATaskStatus i = true <-> 0 <= i <= 6.
Proof.
  unfold IsATaskStatus, _TaskStatusValues. cbn [IsATaskStatus_loop].
  repeat match goal with |- context [Z.eqb i ?k] => destruct (Z.eqb_spec i k) end; split; intros H; first [lia | reflexivity | discriminate H].
Qed.

Lemma TaskStatusString_String_in i : 0 <= i <= 6 -> TaskStatusString (TaskStatus_String i) = Some i.
Proof.
  intros Hi. assert (i = 0 \/ i = 1 \/ i = 2 \/ i = 3 \/ i = 4 \/ i = 5 \/ i = 6) as Hc by lia.
  repeat destruct Hc as [->|Hc]; try (subst i); vm_compute; reflexivity.
Qed.

Lemma TaskStatusString_sound s v : TaskStatusString s = Some v ->
  IsATaskStatus v = true /\ TaskStatus_String v = s.
Proof.
  unfold TaskStatusString, _TaskStatusNameToValueMap. cbn [assoc_lookup].
  repeat match goal with |- context [String.eqb ?a s] =>
    let E := fresh "E" in destruct (String.eqb a s) eqn:E;
    [apply String.eqb_eq in E; subst s; intros [= <-]; split; vm_compute; reflexivity|] end.
  discriminate.
Qed.


(** [TaskStatusString] inverts [String] on the values of the enum: for
    every [i] accepted by [IsATaskStatus], parsing the printed name gives
    [i] back. *)
Theorem TaskStatusString_roundtrip i :
  IsATaskStatus i = true -> TaskStatusString (TaskStatus_String i) = Some i.
Proof. intros H. apply TaskStatusString_String_in, IsATaskStatus_range, H. Qed.


(** [TaskStatusString s] succeeds with [v] exactly when [v] is a value of
    the enum and [s] is the name [String] prints for it: no other string
    is accepted, and no value outside the enum is returned. *)
Theorem TaskStatusString_spec s v :
  TaskStatusString s = Some v <-> IsATaskStatus v = true /\ TaskStatus_String v = s.
Proof.
  split; [apply TaskStatusString_sound|].
  intros [H <-]. apply TaskStatusString_String_in, IsATaskStatus_range, H.
Qed.

(** [IsATaskStatus] accepts exactly the integers [0 <= i < len(_TaskStatusValues)];
    every other value is printed by [String] in the fallback form
    [TaskStatus(i)]. *)
Theorem IsATaskStatus_String i :
  (IsATaskStatus i = true <-> 0 <= i < Z.of_nat (length TaskStatusValues)) /\
  (IsATaskStatus i = false ->
   TaskStatus_String i = ("TaskStatus(" ++ NilZero.string_of_int (Z.to_int i) ++ ")")%string).
Proof.
  split.
  - rewrite IsATaskStatus_range. cbn. lia.
  - intros H. unfold TaskStatus_String.
    assert (~ (0 <= i <= 6)) as Hn by (rewrite <- IsATaskStatus_range; congruence).
    cbn [length _TaskStatusIndex Z.of_nat].
    destruct (Z.ltb_spec i 0); [reflexivity|]. destruct (Z.geb_spec i (Z.of_nat 8 - 1)); [reflexivity|].
    exfalso. apply Hn. cbn in *. lia.
Qed.

(** ** The dispatcher's operations *)

Section Extras.
Context {WM TM : Type} `{Manager WorkersManagerItem WM} `{Manager TasksManagerItem TM}.
Context `{ManagerGetById TasksManagerItem TM}.
Implicit Types d : SimpleDispatcher (WM:=WM) (TM:=TM).

Lemma gets_bind {A B} (f : SimpleDispatcher -> A) (k : A -> DM B) d :
  mbind k (gets f) d = k (f d) d.
Proof. reflexivity. Qed.

Lemma notify_ok d :
  (d_allowExecuteTasks d <= allowExecuteTasks_cap)%nat ->
  notifyAllowExecuteTasks d =
    Some ((), if DispatcherStatus_eqb (d_status d) DispatcherStatusProcess
              then set_allowExecuteTasks 1 d else d).
Proof.
  intros Hl. destruct d as [st wm tm wis tis len wg evs lg gs]; cbn in Hl.
  unfold notifyAllowExecuteTasks, gets, mbind, DM_bind, notify_guard, send_allowExecuteTasks, mret, DM_ret.
  cbn [d_status d_allowExecuteTasks].
  destruct st; cbn [DispatcherStatus_eqb andb]; try reflexivity.
  unfold allowExecuteTasks_cap in Hl. destruct len as [|[|len]]; [reflexivity|reflexivity|lia].
Qed.

(** A [notifyAllowExecuteTasks] run alone (no concurrent caller) never
    blocks while the channel holds at most its capacity: in [Process] it
    leaves exactly one pending signal, in any other status it changes
    nothing; it only touches the channel, and a second call right after
    it is a no-op. *)
Theorem notifyAllowExecuteTasks_sequential d :
  (d_allowExecuteTasks d <= allowExecuteTasks_cap)%nat ->
  exists d', notifyAllowExecuteTasks d = Some ((), d') /\
    d_allowExecuteTasks d' =
      (if DispatcherStatus_eqb (d_status d) DispatcherStatusProcess then 1%nat
       else d_allowExecuteTasks d) /\
    d' = set_allowExecuteTasks (d_allowExecuteTasks d') d /\
    notifyAllowExecuteTasks d' = Some ((), d').
Proof.
  intros Hl. rewrite (notify_ok d Hl). eexists. split; [reflexivity|].
  destruct d as [st wm tm wis tis len wg evs lg gs]; cbn in Hl |- *.
  destruct st; cbn; (split; [reflexivity|]); (split; [reflexivity|]);
    (rewrite notify_ok; [reflexivity|unfold allowExecuteTasks_cap in *; cbn; lia]).
Qed.

Lemma Run_start_busy d :
  d_status d <> DispatcherStatusWait ->
  Run_start d = Some (Some (ErrString "Dispatcher is running"), d).
Proof.
  destruct d as [st wm tm wis tis len wg evs lg gs]; cbn [d_status].
  intros Hs. destruct st; try congruence; reflexivity.
Qed.

(** The start of [Run]: a dispatcher not in [Wait] returns the error
    "Dispatcher is running" and changes nothing; one in [Wait] moves to
    [Process], triggers the status change, leaves one pending signal on
    [allowExecuteTasks], and a second [Run] is then refused. *)
Theorem Run_start_spec d :
  (d_status d <> DispatcherStatusWait ->
   Run_start d = Some (Some (ErrString "Dispatcher is running"), d)) /\
  (d_status d = DispatcherStatusWait -> (d_allowExecuteTasks d <= allowExecuteTasks_cap)%nat ->
   exists d', Run_start d = Some (None, d') /\
     d_status d' = DispatcherStatusProcess /\ d_allowExecuteTasks d' = 1%nat /\
     d_events d' = d_events d ++ [EventDispatcherStatusChanged DispatcherStatusProcess DispatcherStatusWait] /\
     Run_start d' = Some (Some (ErrString "Dispatcher is running"), d')).
Proof.
  split; [apply Run_start_busy|].
  destruct d as [st wm tm wis tis len wg evs lg gs]; cbn [d_status d_allowExecuteTasks d_events].
  intros -> Hl.
  set (d1 := set_allowExecuteTasks 1
               (set_events (evs ++ [EventDispatcherStatusChanged DispatcherStatusProcess DispatcherStatusWait])
                  (set_status DispatcherStatusProcess
                     (mkSimpleDispatcher DispatcherStatusWait wm tm wis tis len wg evs lg gs)))).
  exists d1. split.
  - unfold Run_start, IsStatus, gets, setStatusDispatcher, trigger, modify.
    unfold mbind, DM_bind, mret, DM_ret. cbn -[notifyAllowExecuteTasks].
    rewrite notify_ok by (unfold allowExecuteTasks_cap in *; cbn; lia). reflexivity.
  - split; [reflexivity|]. split; [reflexivity|]. split; [reflexivity|].
    apply Run_start_busy. discriminate.
Qed.

(** In [DispatcherStatusCancel] the collector only clears the cancel
    flags of the task and worker items and [continue]s: no status change,
    no push, no event, no signal. *)
Theorem doResultCollector_step_canceled now r d wi ti :
  d_status d = DispatcherStatusCancel ->
  d_worker_items d !! workerItem r = Some wi ->
  d_task_items d !! taskItem r = Some ti ->
  doResultCollector_step now r d =
    Some ((), set_worker_items (<[workerItem r := wi_SetCancel false wi]> (d_worker_items d))
                (set_task_items (<[taskItem r := ti_SetCancel false ti]> (d_task_items d)) d)).
Proof.
  intros Hs Hw Ht. destruct d as [st wm tm wis tis len wg evs lg gs]; cbn in Hs, Hw, Ht; subst st.
  unfold doResultCollector_step. dm_run. reflexivity.
Qed.

Lemma RemoveTask_ok d id t ti :
  mgr_GetById id (d_tasks d) = Some t ->
  d_task_items d !! t = Some ti ->
  RemoveTask id d =
    Some ((), set_events (d_events d ++ [EventTaskStatusChanged t (TaskStatus_int TaskStatusCancel) (ti_status ti);
                                         EventTaskRemove t])
                (set_tasks (mgr_Remove t (d_tasks d))
                   (set_task_items (<[t := ti_SetStatus (TaskStatus_int TaskStatusCancel) ti]> (d_task_items d)) d))).
Proof.
  intros Hg Ht. destruct d as [st wm tm wis tis len wg evs lg gs]; cbn in Hg, Ht.
  unfold RemoveTask. rewrite gets_bind. cbn [d_tasks]. rewrite Hg.
  unfold tasksRemove, trigger, modify. dm_run. cbn. rewrite <- app_assoc. reflexivity.
Qed.

(** [RemoveTask] for an id the task manager holds, on a running task,
    followed by the collector receiving that task's envelope outside
    Cancel: the task stays out of the task manager and keeps status
    Cancel; the only status change it records is the one [RemoveTask]
    made. *)
Theorem RemoveTask_final now r d wi ti id :
  mgr_GetById id (d_tasks d) = Some (taskItem r) ->
  d_status d <> DispatcherStatusCancel ->
  d_worker_items d !! workerItem r = Some wi ->
  d_task_items d !! taskItem r = Some ti ->
  exists d1 d2, RemoveTask id d = Some ((), d1) /\
    doResultCollector_step now r d1 = Some ((), d2) /\
    d_tasks d2 = mgr_Remove (taskItem r) (d_tasks d) /\
    option_map ti_status (d_task_items d2 !! taskItem r) = Some (TaskStatus_int TaskStatusCancel) /\
    task_status_changes (taskItem r) (d_events d2) =
      task_status_changes (taskItem r) (d_events d) ++ [(TaskStatus_int TaskStatusCancel, ti_status ti)].
Proof.
  intros Hg Hs Hw Ht. rewrite (RemoveTask_ok d id _ ti Hg Ht).
  set (d1 := set_events _ _).
  assert (Hs1 : d_status d1 <> DispatcherStatusCancel) by exact Hs.
  assert (Hw1 : d_worker_items d1 !! workerItem r = Some wi) by exact Hw.
  assert (Ht1 : d_task_items d1 !! taskItem r = Some (ti_SetStatus (TaskStatus_int TaskStatusCancel) ti))
    by (cbn; apply lookup_insert_eq).
  destruct (doResultCollector_step_spec now r d1 wi _ Hs1 Hw1 Ht1) as (d2 & E & Hi & Htm & _ & _ & Hch).
  exists d1, d2. split; [reflexivity|]. split; [exact E|].
  unfold collect_item in Hi, Htm, Hch. cbn [ti_status ti_SetStatus ti_SetCancel] in Hi, Htm, Hch.
  rewrite bool_decide_true in Hi, Htm, Hch by reflexivity.
  rewrite andb_false_r in Hi, Htm, Hch. cbn [fst snd] in Hi, Htm.
  split; [exact Htm|]. split; [rewrite Hi; reflexivity|].
  rewrite Hch, app_nil_r. unfold d1. cbn [d_events set_events]. rewrite task_status_changes_app. cbn.
  rewrite bool_decide_true by reflexivity. reflexivity.
Qed.

Lemma doRunTask_start_worker now w t d wi ti :
  d_worker_items d !! w = Some wi ->
  d_task_items d !! t = Some ti ->
  exists d', doRunTask_start now w t d = Some ((), d') /\
    d_task_items d' !! t = Some (start_item now ti) /\
    d_worker_items d' !! w = Some (wi_SetStatus WorkerStatusProcess (wi_SetTask (Some t) wi)) /\
    d_status d' = d_status d /\ d_workers d' = d_workers d /\ d_tasks d' = d_tasks d.
Proof.
  intros Hw Ht. destruct d as [st wm tm wis tis len wg evs lg gs]; cbn in Hw, Ht.
  unfold doRunTask_start, start_item.
  dm_run.
  all: try (erewrite update_task_ok; [|solve_lookup]).
  all: try (unfold load_task, modify; dm_simpl; rewrite ?lookup_insert_eq; cbn beta iota).
  all: eexists; split; [reflexivity|]; dm_simpl; rewrite ?lookup_insert_eq.
  all: split; [|split; [reflexivity|repeat split]].
  all: rewrite ?bool_decide_true by lia; rewrite ?bool_decide_false by lia; reflexivity.
Qed.

Lemma collect_item_attempts now r ti :
  ti_attempts (fst (collect_item now r ti)) = ti_attempts ti /\
  ti_cancel (fst (collect_item now r ti)) = false.
Proof.
  unfold collect_item.
  destruct (_ && _); [|split; reflexivity].
  destruct (_ || _); [|split; reflexivity].
  destruct (0 <? _); split; reflexivity.
Qed.

Lemma start_item_attempts now ti :
  ti_attempts (start_item now ti) = ti_attempts ti + 1.
Proof. unfold start_item. destruct (bool_decide _); reflexivity. Qed.

(** One round of a task on a worker: the start of [doRunTask], the
    cancel flags it sets before calling the task, and the collector
    receiving an envelope with [cancel = false].  The worker ends in
    [Wait], with no task and no cancel flag, pushed back into the worker
    manager; the task has one attempt more and its cancel flag cleared. *)
Theorem doRunTask_start_then_collect now1 now2 w t d wi ti res e :
  d_status d <> DispatcherStatusCancel ->
  d_worker_items d !! w = Some wi ->
  d_task_items d !! t = Some ti ->
  exists d1 d2 d3,
    doRunTask_start now1 w t d = Some ((), d1) /\
    doRunTask_setCancel w t d1 = Some ((), d2) /\
    doResultCollector_step now2 (mkResult w t res e false) d2 = Some ((), d3) /\
    d_worker_items d3 !! w = Some (mkWorkersManagerItem WorkerStatusWait None false) /\
    d_workers d3 = fst (mgr_Push w (d_workers d)) /\
    option_map ti_attempts (d_task_items d3 !! t) = Some (ti_attempts ti + 1) /\
    option_map ti_cancel (d_task_items d3 !! t) = Some false.
Proof.
  intros Hs Hw Ht.
  destruct (doRunTask_start_worker now1 w t d wi ti Hw Ht) as (d1 & E1 & Ht1 & Hw1 & Hs1 & Hwm1 & _).
  set (ti1 := start_item now1 ti) in *.
  set (wi1 := wi_SetStatus WorkerStatusProcess (wi_SetTask (Some t) wi)) in *.
  set (d1' := set_task_items (<[t := ti_SetCancel true ti1]> (d_task_items d1)) d1).
  set (d2 := set_worker_items (<[w := wi_SetCancel true wi1]> (d_worker_items d1')) d1').
  assert (E2 : doRunTask_setCancel w t d1 = Some ((), d2)).
  { unfold doRunTask_setCancel. erewrite bind_ok; [|apply (update_task_ok _ _ _ _ Ht1)].
    apply update_worker_ok. exact Hw1. }
  assert (Hs2 : d_status d2 <> DispatcherStatusCancel) by (cbn; congruence).
  assert (Hw2 : d_worker_items d2 !! workerItem (mkResult w t res e false) = Some (wi_SetCancel true wi1))
    by (cbn; apply lookup_insert_eq).
  assert (Ht2 : d_task_items d2 !! taskItem (mkResult w t res e false) = Some (ti_SetCancel true ti1))
    by (cbn; apply lookup_insert_eq).
  destruct (doResultCollector_step_spec now2 _ d2 _ _ Hs2 Hw2 Ht2) as (d3 & E3 & Hi & _ & Hwi & Hwm & _).
  exists d1, d2, d3. split; [exact E1|]. split; [exact E2|]. split; [exact E3|].
  cbn [workerItem taskItem] in *.
  split; [rewrite Hwi; reflexivity|]. split; [rewrite Hwm; cbn; rewrite Hwm1; reflexivity|].
  rewrite Hi. cbn [option_map].
  destruct (collect_item_attempts now2 (mkResult w t res e false) (ti_SetCancel true ti1)) as [A C].
  rewrite A, C. split; [|reflexivity]. f_equal. exact (start_item_attempts now1 ti).
Qed.

(** The envelope [doRunTask] sends always carries the worker and task it
    was started with, and its [cancel] flag is set only when the select
    took [<-ctx.Done()] with [Canceled].  A task function that itself
    returns [context.Canceled] therefore yields [cancel = false], and the
    collector records the task as Fail. *)
Theorem doRunTask_result_cancel_flag now d w t wi ti res :
  d_status d <> DispatcherStatusCancel ->
  d_worker_items d !! w = Some wi ->
  d_task_items d !! t = Some ti ->
  ti_status ti <> TaskStatus_int TaskStatusCancel ->
  (forall o sel r, doRunTask_result w t o sel = Some r ->
     workerItem r = w /\ taskItem r = t /\ (cancel r = true -> sel = SelectCtxDone Canceled)) /\
  (exists r rest,
     doRunTask_result w t (FnReturn res (Some (ErrContext Canceled))) SelectDone = Some r /\
     cancel r = false /\
     collector_changes now r d t ((TaskStatus_int TaskStatusFail, ti_status ti) :: rest)).
Proof.
  intros Hs Hw Ht Hti. split.
  - intros o sel r E. destruct sel as [ce|].
    + injection E as <-. cbn. split; [reflexivity|]. split; [reflexivity|].
      destruct ce; [reflexivity|discriminate].
    + destruct o as [res' e'|[|n]]; cbn in E; [|discriminate|]; injection E as <-; cbn;
        (split; [reflexivity|]); (split; [reflexivity|discriminate]).
  - destruct (collector_changes_fail now (mkResult w t res (Some (ErrContext Canceled)) false)
                d wi ti _ Hs Hw Ht Hti eq_refl eq_refl) as [rest C].
    exists (mkResult w t res (Some (ErrContext Canceled)) false), rest.
    split; [reflexivity|]. split; [reflexivity|exact C].
Qed.

Lemma forEach_setStatusWorker ws s d :
  (forall w, w ∈ ws -> is_Some (d_worker_items d !! w)) ->
  exists E h, forEach ws (fun w => setStatusWorker w s) d =
      Some ((), set_events (d_events d ++ E) (set_worker_items h d)) /\
    forall w, h !! w = if decide (w ∈ ws) then wi_SetStatus s <$> d_worker_items d !! w
                       else d_worker_items d !! w.
Proof.
  revert d. induction ws as [|w ws IH]; intros d Hin.
  - exists [], (d_worker_items d). split.
    + rewrite app_nil_r. destruct d; reflexivity.
    + intros k. rewrite decide_False by set_solver. reflexivity.
  - destruct (Hin w ltac:(set_solver)) as [wi Hw].
    cbn [forEach]. erewrite bind_ok; [|apply (setStatusWorker_ok _ _ _ s Hw)].
    set (d1 := set_events _ _).
    destruct (IH d1) as (E & h & Ef & Hh).
    { intros k Hk. unfold d1; cbn. destruct (decide (k = w)) as [->|Hne].
      - rewrite lookup_insert_eq. eauto.
      - rewrite lookup_insert_ne by congruence. apply Hin. set_solver. }
    exists (EventWorkerStatusChanged w s (wi_status wi) :: E), h. split.
    + rewrite Ef. unfold d1. cbn. rewrite <- app_assoc. reflexivity.
    + intros k. rewrite Hh. unfold d1; cbn [d_worker_items set_events set_worker_items].
      destruct (decide (k = w)) as [->|Hne].
      * rewrite lookup_insert_eq, Hw. destruct (decide (w ∈ w :: ws)); [|set_solver].
        destruct (decide (w ∈ ws)); cbn; [destruct wi|]; reflexivity.
      * rewrite lookup_insert_ne by congruence.
        destruct (decide (k ∈ ws)), (decide (k ∈ w :: ws)); try reflexivity; set_solver.
Qed.

Lemma forEach_setStatusTask ts s d :
  (forall t, t ∈ ts -> is_Some (d_task_items d !! t)) ->
  exists E h, forEach ts (fun t => setStatusTask t s) d =
      Some ((), set_events (d_events d ++ E) (set_task_items h d)) /\
    forall t, h !! t = if decide (t ∈ ts) then ti_SetStatus s <$> d_task_items d !! t
                       else d_task_items d !! t.
Proof.
  revert d. induction ts as [|t ts IH]; intros d Hin.
  - exists [], (d_task_items d). split.
    + rewrite app_nil_r. destruct d; reflexivity.
    + intros k. rewrite decide_False by set_solver. reflexivity.
  - destruct (Hin t ltac:(set_solver)) as [ti Ht].
    cbn [forEach]. erewrite bind_ok; [|apply (setStatusTask_ok _ _ _ s Ht)].
    set (d1 := set_events _ _).
    destruct (IH d1) as (E & h & Ef & Hh).
    { intros k Hk. unfold d1; cbn. destruct (decide (k = t)) as [->|Hne].
      - rewrite lookup_insert_eq. eauto.
      - rewrite lookup_insert_ne by congruence. apply Hin. set_solver. }
    exists (EventTaskStatusChanged t s (ti_status ti) :: E), h. split.
    + rewrite Ef. unfold d1. cbn. rewrite <- app_assoc. reflexivity.
    + intros k. rewrite Hh. unfold d1; cbn [d_task_items set_events set_task_items].
      destruct (decide (k = t)) as [->|Hne].
      * rewrite lookup_insert_eq, Ht. destruct (decide (t ∈ t :: ts)); [|set_solver].
        destruct (decide (t ∈ ts)); cbn; [destruct ti|]; reflexivity.
      * rewrite lookup_insert_ne by congruence.
        destruct (decide (k ∈ ts)), (decide (k ∈ t :: ts)); try reflexivity; set_solver.
Qed.



(** The end of [Run], after [<-d.ctx.Done()], for any managers whose
    references all point at items: it blocks while the WaitGroup is not
    zero; otherwise it returns nil with the dispatcher in [Wait], the
    managers unchanged, every managed worker in Cancel, every managed task
    with the int64 of [WorkerStatusCancel], every other item untouched,
    and the events framed by the Cancel and Wait status changes. *)
Theorem Run_after_ctx_done_spec d :
  (forall w, w ∈ mgr_GetAll (d_workers d) -> is_Some (d_worker_items d !! w)) ->
  (forall t, t ∈ mgr_GetAll (d_tasks d) -> is_Some (d_task_items d !! t)) ->
  (d_wg d <> 0%nat -> Run_after_ctx_done d = None) /\
  (d_wg d = 0%nat ->
   exists d', Run_after_ctx_done d = Some (None, d') /\
     d_status d' = DispatcherStatusWait /\
     d_workers d' = d_workers d /\ d_tasks d' = d_tasks d /\
     (forall w, d_worker_items d' !! w =
        if decide (w ∈ mgr_GetAll (d_workers d))
        then wi_SetStatus WorkerStatusCancel <$> d_worker_items d !! w
        else d_worker_items d !! w) /\
     (forall t, d_task_items d' !! t =
        if decide (t ∈ mgr_GetAll (d_tasks d))
        then ti_SetStatus (WorkerStatus_int WorkerStatusCancel) <$> d_task_items d !! t
        else d_task_items d !! t) /\
     exists mid, d_events d' = d_events d ++
        EventDispatcherStatusChanged DispatcherStatusCancel (d_status d) ::
        mid ++ [EventDispatcherStatusChanged DispatcherStatusWait DispatcherStatusCancel]).
Proof.
  intros Hws Hts.
  set (d1 := set_events (d_events d ++ [EventDispatcherStatusChanged DispatcherStatusCancel (d_status d)])
               (set_status DispatcherStatusCancel d)).
  assert (E1 : setStatusDispatcher DispatcherStatusCancel d = Some ((), d1)) by reflexivity.
  destruct (forEach_setStatusWorker (mgr_GetAll (d_workers d)) WorkerStatusCancel d1 Hws)
    as (Ew & hw & Fw & Hhw).
  set (d2 := set_events (d_events d1 ++ Ew) (set_worker_items hw d1)) in Fw.
  destruct (forEach_setStatusTask (mgr_GetAll (d_tasks d)) (WorkerStatus_int WorkerStatusCancel) d2)
    as (Et & ht & Ft & Hht).
  { intros t Ht. exact (Hts t Ht). }
  set (d3 := set_events (d_events d2 ++ Et) (set_task_items ht d2)) in Ft.
  assert (Pre : Run_after_ctx_done d =
    (wg_Wait;; setStatusDispatcher DispatcherStatusWait;; mret None) d3).
  { unfold Run_after_ctx_done. rewrite (bind_ok _ _ _ _ _ E1).
    rewrite gets_bind. change (d_workers d1) with (d_workers d).
    rewrite (bind_ok _ _ _ _ _ Fw).
    rewrite gets_bind. change (d_tasks d2) with (d_tasks d).
    rewrite (bind_ok _ _ _ _ _ Ft). reflexivity. }
  rewrite Pre. split.
  - intros Hwg. unfold mbind at 1, DM_bind at 1, wg_Wait.
    change (d_wg d3) with (d_wg d). destruct (d_wg d); [congruence|reflexivity].
  - intros Hwg. eexists. split.
    { unfold mbind at 1, DM_bind at 1, wg_Wait. change (d_wg d3) with (d_wg d). rewrite Hwg.
      reflexivity. }
    cbn. split; [reflexivity|]. split; [reflexivity|]. split; [reflexivity|].
    split; [intros w; rewrite Hhw; reflexivity|].
    split; [intros t; rewrite Hht; reflexivity|].
    exists (Ew ++ Et). rewrite <- !app_assoc. reflexivity.
Qed.

Lemma prefix_snoc_ex {A} (l1 l2 : list A) x :
  l1 `prefix_of` l2 -> exists pre, l2 ++ [x] = l1 ++ pre ++ [x].
Proof. intros [pre ->]. exists pre. rewrite app_assoc. reflexivity. Qed.

(** Outside [DispatcherStatusCancel] the collector ends every envelope
    with [EventTaskExecuteStop] and [notifyAllowExecuteTasks]: in
    [Process] it leaves exactly one pending signal, in another status the
    channel is untouched; it never changes the dispatcher status or the
    WaitGroup. *)
Theorem doResultCollector_step_signal now r d wi ti :
  d_status d <> DispatcherStatusCancel ->
  d_worker_items d !! workerItem r = Some wi ->
  d_task_items d !! taskItem r = Some ti ->
  (d_allowExecuteTasks d <= allowExecuteTasks_cap)%nat ->
  exists d', doResultCollector_step now r d = Some ((), d') /\
    d_allowExecuteTasks d' =
      (if DispatcherStatus_eqb (d_status d) DispatcherStatusProcess then 1%nat
       else d_allowExecuteTasks d) /\
    d_status d' = d_status d /\ d_wg d' = d_wg d /\
    exists pre, d_events d' = d_events d ++ pre ++
      [EventTaskExecuteStop (taskItem r) (workerItem r) (result r) (err r)].
Proof.
  intros Hs Hw Ht Hl. destruct d as [st wm tm wis tis len wg evs lg gs].
  cbn in Hs, Hw, Ht, Hl. unfold allowExecuteTasks_cap in Hl. destruct st; try congruence.
  all: destruct r as [w t res e c]; cbn [workerItem taskItem result err cancel] in *.
  all: destruct wi as [ws wt wc]; destruct c, e, ws.
  all: unfold doResultCollector_step, notifyAllowExecuteTasks, logOnError,
    send_allowExecuteTasks, collect_item, notify_guard.
  all: dm_run.
  all: eexists; split; [reflexivity|]; dm_simpl.
  all: split; [|split; [reflexivity|split; [reflexivity|]]].
  all: first
    [ rewrite ?app_assoc; apply prefix_snoc_ex; repeat apply prefix_app_r; reflexivity
    | repeat match goal with H : Nat.ltb _ _ = _ |- _ =>
        first [apply Nat.ltb_lt in H | apply Nat.ltb_ge in H] end; lia ].
Qed.

End Extras.

(** ** Witnesses *)

Lemma TaskStatusString_roundtrip_witness :
  IsATaskStatus 5 = true /\ TaskStatusString (TaskStatus_String 5) = Some 5.
Proof.
  assert (H : IsATaskStatus 5 = true) by reflexivity.
  split; [exact H|]. exact (TaskStatusString_roundtrip 5 H).
Defined.

Lemma notifyAllowExecuteTasks_sequential_witness :
  (d_allowExecuteTasks (example_running 5 0) <= allowExecuteTasks_cap)%nat /\
  exists d', notifyAllowExecuteTasks (example_running 5 0) = Some ((), d') /\
    d_allowExecuteTasks d' = 1%nat.
Proof.
  assert (Hl : (d_allowExecuteTasks (example_running 5 0) <= allowExecuteTasks_cap)%nat)
    by (cbv; lia).
  split; [exact Hl|].
  destruct (notifyAllowExecuteTasks_sequential (example_running 5 0) Hl) as (d' & E & L & _).
  exists d'. split; [exact E|exact L].
Defined.

Lemma doResultCollector_step_canceled_witness :
  let d := example_dispatcher DispatcherStatusCancel WorkerStatusProcess 2 1 in
  let r := mkResult 1 7 VNil None true in
  exists d', doResultCollector_step 0 r d = Some ((), d') /\ d_events d' = [] /\
    option_map wi_cancel (d_worker_items d' !! 1%nat) = Some false.
Proof.
  intros d r. eexists. split.
  - apply (doResultCollector_step_canceled 0 r d
             (mkWorkersManagerItem WorkerStatusProcess (Some 7%nat) true)
             (mkTasksManagerItem example_task 2 1 None (Some 0) (Some 0) true));
      reflexivity.
  - split; reflexivity.
Defined.

Lemma RemoveTask_final_witness :
  let d := example_running 5 0 in
  let r := mkResult 1 7 VNil None false in
  d_tasks d = [7%nat] /\
  exists d1 d2, RemoveTask 7 d = Some ((), d1) /\
    doResultCollector_step 0 r d1 = Some ((), d2) /\ d_tasks d2 = [] /\
    option_map ti_status (d_task_items d2 !! 7%nat) = Some 6.
Proof.
  intros d r. split; [reflexivity|].
  destruct (RemoveTask_final 0 r d
              (mkWorkersManagerItem WorkerStatusProcess None false)
              (mkTasksManagerItem example_task 5 1 None (Some 0) (Some 0) false) 7)
    as (d1 & d2 & E1 & E2 & Htm & Hst & _); [reflexivity|discriminate|reflexivity|reflexivity|].
  exists d1, d2. split; [exact E1|]. split; [exact E2|]. split; [rewrite Htm; reflexivity|exact Hst].
Defined.

Lemma doRunTask_start_then_collect_witness :
  let d := example_dispatcher DispatcherStatusProcess WorkerStatusWait 1 0 in
  exists d3 : SimpleDispatcher (WM:=list nat) (TM:=list nat), d_workers d3 = [1%nat] /\
    option_map ti_attempts (d_task_items d3 !! 7%nat) = Some 1.
Proof.
  intros d.
  destruct (doRunTask_start_then_collect 5 6 1 7 d
              (mkWorkersManagerItem WorkerStatusWait (Some 7%nat) true)
              (mkTasksManagerItem example_task 1 0 None (Some 0) (Some 0) true) VNil None)
    as (d1 & d2 & d3 & _ & _ & _ & _ & Hw & Ha & _); [discriminate|reflexivity|reflexivity|].
  exists d3. split; [exact Hw|exact Ha].
Defined.

Lemma doRunTask_result_cancel_flag_witness :
  let d := example_dispatcher DispatcherStatusProcess WorkerStatusProcess 2 1 in
  exists r, doRunTask_result 1 7 (FnReturn VNil (Some (ErrContext Canceled))) SelectDone = Some r /\
    cancel r = false.
Proof.
  intros d.
  destruct (doRunTask_result_cancel_flag 5 d 1 7
              (mkWorkersManagerItem WorkerStatusProcess (Some 7%nat) true)
              (mkTasksManagerItem example_task 2 1 None (Some 0) (Some 0) true) VNil)
    as [_ (r & rest & E & C & _)]; [discriminate|reflexivity|reflexivity|cbv; discriminate|].
  exists r. split; [exact E|exact C].
Defined.

Lemma Run_after_ctx_done_spec_witness :
  exists d', Run_after_ctx_done (example_running 5 0) = Some (None, d') /\
    d_status d' = DispatcherStatusWait /\
    option_map wi_status (d_worker_items d' !! 1%nat) = Some WorkerStatusCancel.
Proof.
  destruct (Run_after_ctx_done_spec (example_running 5 0)) as [_ B].
  - intros w Hw. cbn in Hw. apply list_elem_of_singleton in Hw. subst w. eexists. reflexivity.
  - intros t Ht. cbn in Ht. apply list_elem_of_singleton in Ht. subst t. eexists. reflexivity.
  - destruct (B eq_refl) as (d' & E & S & _ & _ & Hw & _).
    exists d'. split; [exact E|]. split; [exact S|]. rewrite Hw. reflexivity.
Defined.

Lemma doResultCollector_step_signal_witness :
  let r := mkResult 1 7 VNil None false in
  exists d', doResultCollector_step 0 r (example_running 5 0) = Some ((), d') /\
    d_allowExecuteTasks d' = 1%nat.
Proof.
  intros r.
  destruct (doResultCollector_step_signal 0 r (example_running 5 0)
              (mkWorkersManagerItem WorkerStatusProcess None false)
              (mkTasksManagerItem example_task 5 1 None (Some 0) (Some 0) false))
    as (d' & E & L & _); [discriminate|reflexivity|reflexivity|cbv; lia|].
  exists d'. split; [exact E|exact L].
Defined.
